(** * MechanicalSoup [StatefulBrowser]: a shallow embedding

    Source: [script.module.mechanicalsoup/lib/mechanicalsoup/stateful_browser.py].

    The class keeps a [_BrowserState] (page, url, form, request) and drives
    three collaborators that live outside that file: the HTTP session
    ([Browser.get], [Browser.submit], [session.get], [session.send]), the
    HTML tree of BeautifulSoup ([select], [find_all], [Tag.extend]) and the
    [Form] wrapper.  The methods are embedded as computations in a state and
    exception monad over the browser object and a log of the calls made to
    the collaborators; the collaborators' answers are a parameter
    ([Backend]). *)

From Stdlib Require Import String Ascii List ZArith Bool Arith Lia.
Import ListNotations.
Local Open Scope string_scope.
Local Open Scope list_scope.
Set Warnings "-register-all".

(** ** The element tree *)

Module Soup.

(** A parsed document.  Python objects have an identity, and the browser
    hands the same [Tag] objects around (the page, the elements returned by
    [find_all], the selected form): every tag carries a [uid] standing for
    that identity.  [Text] is a [NavigableString]. *)
Inductive node : Type :=
| Text (s : string)
| Tag (uid : nat) (name : string) (attrs : list (string * string))
      (contents : list node).

Definition is_tag (t : node) : bool :=
  match t with Tag _ _ _ _ => true | Text _ => false end.

Definition tag_uid (t : node) : option nat :=
  match t with Tag i _ _ _ => Some i | Text _ => None end.

Definition tag_name (t : node) : option string :=
  match t with Tag _ n _ _ => Some n | Text _ => None end.

Definition tag_attrs (t : node) : list (string * string) :=
  match t with Tag _ _ a _ => a | Text _ => [] end.

Definition tag_contents (t : node) : list node :=
  match t with Tag _ _ _ cs => cs | Text _ => [] end.

Fixpoint assoc (k : string) (d : list (string * string)) : option string :=
  match d with
  | [] => None
  | (k', v) :: d' => if String.eqb k' k then Some v else assoc k d'
  end.

(** [tag[key]] / [tag.get(key)] and [tag.has_attr(key)]. *)
Definition get_attr (k : string) (t : node) : option string :=
  assoc k (tag_attrs t).

Definition has_attr (k : string) (t : node) : bool :=
  match get_attr k t with Some _ => true | None => false end.

(** Document order: a node, then its contents from left to right. *)
Fixpoint preorder (t : node) : list node :=
  match t with
  | Text _ => [t]
  | Tag _ _ _ cs => t :: flat_map preorder cs
  end.

(** [tag.descendants]: everything below [t], [t] itself excluded. *)
Definition descendants (t : node) : list node :=
  flat_map preorder (tag_contents t).

(** [tag.text]: the strings below [t], concatenated in document order. *)
Fixpoint text (t : node) : string :=
  match t with
  | Text s => s
  | Tag _ _ _ cs => fold_right (fun c acc => String.append (text c) acc) "" cs
  end.

(** A keyword filter of [find_all]: [attr=True] asks for the attribute to
    be present, [attr="v"] for the value [v].  BeautifulSoup matches a
    missing attribute against any false value, so [attr=""] also keeps the
    tags that do not have the attribute at all. *)
Inductive attr_filter : Type :=
| FPresent
| FValue (v : string).

Definition matches (markup : option string) (f : attr_filter) : bool :=
  match f, markup with
  | FPresent, Some _ => true
  | FPresent, None => false
  | FValue v, Some x => String.eqb x v
  | FValue v, None => String.eqb v ""
  end.

Definition matches_all (fs : list (string * attr_filter)) (t : node) : bool :=
  forallb (fun kf => matches (get_attr (fst kf) t) (snd kf)) fs.

Definition name_is (n : string) (t : node) : bool :=
  match t with Tag _ m _ _ => String.eqb m n | Text _ => false end.

(** [soup.find_all(name, attr=.., ..)]: the tags below [soup] called [name]
    that pass every filter, in document order. *)
Definition find_all (soup : node) (name : string)
           (fs : list (string * attr_filter)) : list node :=
  filter (fun t => name_is name t && matches_all fs t) (descendants soup).

(** [soup.select(selector, limit=n)].  The CSS engine is a collaborator:
    [css sel t] says whether the tag [t] matches the selector [sel].  The
    matches come in document order; the engine stops after [limit] of them
    and reads a limit below one as no limit. *)
Definition select (css : string -> node -> bool) (soup : node)
           (selector : string) (limit : Z) : list node :=
  let found := filter (fun t => is_tag t && css selector t) (descendants soup) in
  if (limit <? 1)%Z then found else firstn (Z.to_nat limit) found.

(** *** [Tag.extend]

    [form.extend(tags)] runs [form.append(tag)] for each tag, and [append]
    first takes a tag that already has a parent out of that parent: the
    tags are moved, not copied.  The functions below give the tree after
    the whole loop: every moved tag has left its old place ([kept],
    [prune]), and the moved tags, in the order of [tags], end the contents
    of the tag that received them ([graft]). *)
Definition uids (ts : list node) : list nat :=
  flat_map (fun t => match t with Tag i _ _ _ => [i] | Text _ => [] end) ts.

Definition kept (gone : list nat) (c : node) : bool :=
  match c with
  | Text _ => true
  | Tag i _ _ _ => negb (existsb (Nat.eqb i) gone)
  end.

Fixpoint prune (gone : list nat) (t : node) : node :=
  match t with
  | Text _ => t
  | Tag i n a cs =>
      Tag i n a
          (flat_map (fun c => if kept gone c then [prune gone c] else []) cs)
  end.

Fixpoint graft (target : nat) (moved : list node) (gone : list nat)
         (t : node) : node :=
  match t with
  | Text _ => t
  | Tag i n a cs =>
      let cs' :=
        flat_map
          (fun c => if kept gone c then [graft target moved gone c] else [])
          cs in
      Tag i n a (if Nat.eqb i target then cs' ++ moved else cs')
  end.

(** The tree [t] (the page, or the receiving tag itself) as it is once
    [receiver.extend(tags)] has run. *)
Definition extend (receiver : node) (tags : list node) (t : node) : node :=
  match receiver with
  | Tag i _ _ _ => graft i (map (prune (uids tags)) tags) (uids tags) t
  | Text _ => t
  end.

(** [receiver.append(tag)] refuses the receiver itself ("Cannot insert a
    tag into itself."): the loop of [extend] stops there, with the tags
    before it already moved. *)
Definition has_uid (i : nat) (t : node) : bool :=
  match t with Tag j _ _ _ => Nat.eqb j i | Text _ => false end.

Definition meets_self (receiver : node) (tags : list node) : bool :=
  match receiver with
  | Tag i _ _ _ => existsb (has_uid i) tags
  | Text _ => false
  end.

Fixpoint before_uid (i : nat) (tags : list node) : list node :=
  match tags with
  | [] => []
  | t :: rest => if has_uid i t then [] else t :: before_uid i rest
  end.

Definition before_self (receiver : node) (tags : list node) : list node :=
  match receiver with
  | Tag i _ _ _ => before_uid i tags
  | Text _ => tags
  end.

(** The same, one tag at a time, as the loop runs: [extract] takes the tag
    with a given [uid] out of the tree, [append] makes a tag the last child
    of the receiver, and [move] does what [receiver.append(tag)] does to a
    tag that has a parent. *)
Fixpoint find_uid (i : nat) (t : node) : option node :=
  match t with
  | Text _ => None
  | Tag j _ _ cs =>
      if Nat.eqb j i then Some t
      else fold_right
             (fun c found =>
                match find_uid i c with Some x => Some x | None => found end)
             None cs
  end.

Definition extract (i : nat) (t : node) : node := prune [i] t.

Definition append (receiver : nat) (c : node) (t : node) : node :=
  graft receiver [c] [] t.

Definition move (receiver : nat) (t : node) (i : nat) : node :=
  match find_uid i t with
  | Some c => append receiver c (extract i t)
  | None => t
  end.

Definition extend_loop (receiver : node) (tags : list node) (t : node) : node :=
  match receiver with
  | Tag i _ _ _ => fold_left (move i) (uids tags) t
  | Text _ => t
  end.

End Soup.
Import Soup.


(** ** Headers: [requests.structures.CaseInsensitiveDict] *)

Definition lower_ascii (c : ascii) : ascii :=
  let n := nat_of_ascii c in
  if ((65 <=? n)%nat && (n <=? 90)%nat)%bool then ascii_of_nat (n + 32) else c.

(** [str.lower()], on the ASCII letters. *)
Fixpoint lower (s : string) : string :=
  match s with
  | EmptyString => EmptyString
  | String c r => String (lower_ascii c) (lower r)
  end.

(** A plain Python [dict] of strings: keys in insertion order. *)
Definition dict : Type := list (string * string).

Module CaseInsensitiveDict.

(** The [_store]: the lowered key maps to the key as last written and the
    value. *)
Definition t : Type := list (string * (string * string)).

(** [d[key] = value] *)
Fixpoint setitem (key value : string) (store : t) : t :=
  match store with
  | [] => [(lower key, (key, value))]
  | (k, kv) :: rest =>
      if String.eqb k (lower key) then (k, (key, value)) :: rest
      else (k, kv) :: setitem key value rest
  end.

(** [CaseInsensitiveDict(data)] *)
Definition make (data : dict) : t :=
  fold_left (fun store kv => setitem (fst kv) (snd kv) store) data [].

(** [key in d] *)
Definition contains (key : string) (store : t) : bool :=
  existsb (fun e => String.eqb (fst e) (lower key)) store.

(** [d.get(key)] *)
Fixpoint getitem (key : string) (store : t) : option string :=
  match store with
  | [] => None
  | (k, kv) :: rest =>
      if String.eqb k (lower key) then Some (snd kv) else getitem key rest
  end.

(** [d.items()] *)
Definition items (store : t) : dict := map snd store.

End CaseInsensitiveDict.

(** The value a header has for the session that receives [headers]: the
    session reads them through a [CaseInsensitiveDict]. *)
Definition header (name : string) (headers : dict) : option string :=
  CaseInsensitiveDict.getitem name (CaseInsensitiveDict.make headers).

(** ** Requests, responses and the browser object *)

(** The keyword arguments forwarded to [requests]: [headers] when the key is
    there, and the other keys. *)
Record requests_kwargs : Type := mkRequestsKwargs {
  kw_headers : option dict;
  kw_other : dict
}.

Definition no_kwargs : requests_kwargs := mkRequestsKwargs None [].

Record Request : Type := mkRequest {
  req_method : string;
  req_url : string;
  req_headers : dict;
  req_body : string
}.

Record Response : Type := mkResponse {
  resp_soup : option node;
  resp_url : string;
  resp_request : Request;
  resp_status_code : Z;
  resp_content : string
}.

(** [mechanicalsoup.Form]: a wrapper around the form's tag. *)
Record Form : Type := mkForm { form_tag : node }.

(** [_BrowserState] *)
Record BrowserState : Type := mkBrowserState {
  st_page : option node;
  st_url : option string;
  st_form : option Form;
  st_request : option Request
}.

(** [_BrowserState()]: every field defaults to [None]. *)
Definition empty_state : BrowserState := mkBrowserState None None None None.

(** [_BrowserState(page=.., url=.., request=..)], as [open], [refresh] and
    [submit_selected] build it: [form] is left at its default. *)
Definition state_of_response (resp : Response) : BrowserState :=
  mkBrowserState (resp_soup resp) (Some (resp_url resp)) None
                 (Some (resp_request resp)).

Record StatefulBrowser : Type := mkStatefulBrowser {
  debug : bool;
  verbose : Z;
  state : BrowserState;
  raise_on_404 : bool;
  soup_config : string
}.

(** [StatefulBrowser.__init__] *)
Definition init (raise404 : bool) (config : string) : StatefulBrowser :=
  mkStatefulBrowser false 0 empty_state raise404 config.

(** The Python values that reach the browser as [btnName], [url_regex],
    [link_text] or [link]. *)
Inductive pyval : Type :=
| PNone
| PBool (b : bool)
| PStr (s : string)
| PTag (t : node).

(** Truth value of a Python object.  A [Tag] is always true; a
    [NavigableString] is a [str], false when empty. *)
Definition truthy (v : pyval) : bool :=
  match v with
  | PNone => false
  | PBool b => b
  | PStr s => negb (String.eqb s "")
  | PTag (Text s) => negb (String.eqb s "")
  | PTag (Tag _ _ _ _) => true
  end.

(** The keyword arguments that travel to [find_link] and [links]: a field is
    [None] when the key is not in the dictionary ([Some PNone] is the key
    set to [None]).  The remaining keys are attribute filters for
    [find_all]; the positional [*bs4_args] are not modelled. *)
Record bs4_kwargs : Type := mkBs4Kwargs {
  kw_url_regex : option pyval;
  kw_link_text : option pyval;
  kw_filters : list (string * attr_filter)
}.

Definition empty_bs4_kwargs : bs4_kwargs := mkBs4Kwargs None None [].

Definition or_else {A} (a b : option A) : option A :=
  match a with Some _ => a | None => b end.

Fixpoint filter_set (k : string) (f : attr_filter)
         (d : list (string * attr_filter)) : list (string * attr_filter) :=
  match d with
  | [] => [(k, f)]
  | (k', f') :: rest =>
      if String.eqb k' k then (k', f) :: rest else (k', f') :: filter_set k f rest
  end.

(** [d.update(other)] *)
Definition dict_update (d other : bs4_kwargs) : bs4_kwargs :=
  mkBs4Kwargs (or_else (kw_url_regex other) (kw_url_regex d))
              (or_else (kw_link_text other) (kw_link_text d))
              (fold_left (fun acc kf => filter_set (fst kf) (snd kf) acc)
                         (kw_filters other) (kw_filters d)).

(** ** Exceptions, effects and collaborators *)

Inductive exn : Type :=
| LinkNotFoundError
| ValueError (msg : string)
| AttributeError (msg : string)
| TypeError
| IndexError
| KeyError (key : string)
| RequestException (code : nat)   (* raised inside the HTTP session *)
| IOError (code : nat).

Definition unrefreshable : exn :=
  ValueError "The current page is not refreshable. Either no page is opened or low-level browser methods were used to do so".

Definition conflicting_argument : exn :=
  ValueError "link parameter cannot be treated as url_regex because url_regex is already present in keyword arguments".

Definition unselected_form : exn :=
  AttributeError "No form has been selected yet on this page.".

Definition insert_into_itself : exn :=
  ValueError "Cannot insert a tag into itself.".

Definition no_page : exn :=
  AttributeError "'NoneType' object has no attribute".

(** What the browser does to the outside, in the order it does it. *)
Inductive event : Type :=
| StdoutWrite (s : string)                       (* sys.stdout.write, print(url) *)
| PrintSelectFormFailed (selector : pyval)
| PrintFindLinkFailed (kwargs : bs4_kwargs)
| PrintLinksHeader
| PrintLink (link : node)
| LaunchBrowser (soup : option node)             (* Browser.launch_browser *)
| BrowserGet (url : string) (kwargs : requests_kwargs)      (* self.get *)
| SessionGet (url : string) (kwargs : requests_kwargs)      (* self.session.get *)
| SessionSend (request : Request)                            (* self.session.send *)
| ChooseSubmit (form : Form) (btnName : pyval)               (* Form.choose_submit *)
| BrowserSubmit (form : option Form) (url : option string)
                (kwargs : requests_kwargs)                   (* self.submit *)
| FileWrite (path : string) (data : string).     (* open(file, 'wb').write *)

(** The collaborators.  Each answers from the history of events so far, so
    that a server may answer the same request differently the second time.
    [Browser_get] and [Browser_submit] return the response with its soup
    attached (they call [Browser.add_soup] themselves) or raise;
    [session_get] and [session_send] return the bare response or raise inside
    [requests].  [choose_submit] says whether [Form.choose_submit] raises,
    and [file_write] whether writing the file does; [css] is the selector
    engine, [re_search] is [re.search] read as a truth value, [urljoin] is
    [urllib.parse.urljoin] and [BeautifulSoup] the parser. *)
Record Backend : Type := mkBackend {
  css : string -> node -> bool;
  re_search : string -> string -> bool;
  urljoin : option string -> string -> string;
  BeautifulSoup : string -> string -> node;
  add_soup : Response -> string -> option node;
  Browser_get : list event -> string -> requests_kwargs -> exn + Response;
  Browser_submit : list event -> option Form -> option string ->
                   requests_kwargs -> exn + Response;
  session_get : list event -> string -> requests_kwargs -> nat + Response;
  session_send : list event -> Request -> nat + Response;
  choose_submit : list event -> Form -> pyval -> option exn;
  file_write : list event -> string -> string -> option nat
}.

(** The objects that outlive a call besides the browser: the event log and
    the two [bs4_kwargs={}] default dictionaries, each created once, when
    its function is defined, and shared by every call that leaves
    [bs4_kwargs] out. *)
Record World : Type := mkWorld {
  log : list event;
  follow_link_default : bs4_kwargs;
  download_link_default : bs4_kwargs
}.

Definition new_world : World := mkWorld [] empty_bs4_kwargs empty_bs4_kwargs.

Inductive result (A : Type) : Type :=
| Return (a : A)
| Raise (e : exn).
Arguments Return {A} a.
Arguments Raise {A} e.

(** A method call: from the world and the browser before it to the world and
    the browser after it, with what it returned or raised. *)
Definition M (A : Type) : Type :=
  World * StatefulBrowser -> (World * StatefulBrowser) * result A.

Definition ret {A} (a : A) : M A := fun s => (s, Return a).

Definition raise {A} (e : exn) : M A := fun s => (s, Raise e).

Definition bind {A B} (m : M A) (k : A -> M B) : M B :=
  fun s =>
    match m s with
    | (s', Return a) => k a s'
    | (s', Raise e) => (s', Raise e)
    end.

(** [try: m except LinkNotFoundError: handler; raise] *)
Definition on_link_not_found {A} (m : M A) (handler : M unit) : M A :=
  fun s =>
    match m s with
    | (s', Raise LinkNotFoundError) =>
        match handler s' with
        | (s'', Return _) => (s'', Raise LinkNotFoundError)
        | (s'', Raise e) => (s'', Raise e)
        end
    | r => r
    end.

Declare Scope browser_scope.
Delimit Scope browser_scope with browser.
Notation "x <- m ;; k" := (bind m (fun x => k))
  (at level 100, m at next level, right associativity) : browser_scope.
Notation "m ;;; k" := (bind m (fun _ => k))
  (at level 100, right associativity) : browser_scope.
Local Open Scope browser_scope.

Definition self : M StatefulBrowser := fun s => (s, Return (snd s)).

Definition the_log : M (list event) := fun s => (s, Return (log (fst s))).

Definition emit (e : event) : M unit :=
  fun s =>
    let w := fst s in
    ((mkWorld (log w ++ [e]) (follow_link_default w) (download_link_default w),
      snd s), Return tt).

(** [self.__state = st] *)
Definition set_state (st : BrowserState) : M unit :=
  fun s =>
    let b := snd s in
    ((fst s, mkStatefulBrowser (debug b) (verbose b) st (raise_on_404 b)
                               (soup_config b)), Return tt).

Definition when (c : bool) (m : M unit) : M unit := if c then m else ret tt.

Definition lift_exn {A} (r : exn + A) : M A :=
  match r with inl e => raise e | inr a => ret a end.

Definition lift_request {A} (r : nat + A) : M A :=
  match r with inl c => raise (RequestException c) | inr a => ret a end.

(** ** [StatefulBrowser] *)

Section StatefulBrowser.

Variable B : Backend.

(** The [page], [url] and [form] properties. *)
Definition page : M (option node) :=
  b <- self ;; ret (st_page (state b)).

Definition url : M (option string) :=
  b <- self ;; ret (st_url (state b)).

Definition form : M Form :=
  b <- self ;;
  match st_form (state b) with
  | None => raise unselected_form
  | Some f => ret f
  end.

(** [self.page.method(..)]: attribute access on [None] raises. *)
Definition page_object : M node :=
  p <- page ;;
  match p with
  | None => raise no_page
  | Some soup => ret soup
  end.

Definition set_verbose (v : Z) : M unit :=
  fun s =>
    let b := snd s in
    ((fst s, mkStatefulBrowser (debug b) v (state b) (raise_on_404 b)
                               (soup_config b)), Return tt).

Definition set_debug (d : bool) : M unit :=
  fun s =>
    let b := snd s in
    ((fst s, mkStatefulBrowser d (verbose b) (state b) (raise_on_404 b)
                               (soup_config b)), Return tt).

Definition get_debug : M bool := b <- self ;; ret (debug b).

Definition absolute_url (u : string) : M string :=
  base <- url ;; ret (urljoin B base u).

(** [Browser.get], inherited. *)
Definition get (u : string) (kwargs : requests_kwargs) : M Response :=
  h <- the_log ;;
  emit (BrowserGet u kwargs) ;;;
  lift_exn (Browser_get B h u kwargs).

Definition open (u : string) (kwargs : requests_kwargs) : M Response :=
  b <- self ;;
  (if (verbose b =? 1)%Z then emit (StdoutWrite ".")
   else when (verbose b >=? 2)%Z (emit (StdoutWrite u))) ;;;
  resp <- get u kwargs ;;
  set_state (state_of_response resp) ;;;
  ret resp.

Definition open_fake_page (page_text : string) (u : option string)
           (config : option string) : M unit :=
  b <- self ;;
  let config := match config with Some c => c | None => soup_config b end in
  set_state (mkBrowserState (Some (BeautifulSoup B page_text config)) u
                            None None).

Definition open_relative (u : string) (kwargs : requests_kwargs)
  : M Response :=
  target <- absolute_url u ;;
  open target kwargs.

Definition refresh : M Response :=
  b <- self ;;
  match st_request (state b) with
  | None => raise unrefreshable
  | Some old_request =>
      h <- the_log ;;
      emit (SessionSend old_request) ;;;
      resp <- lift_request (session_send B h old_request) ;;
      let resp :=
        mkResponse (add_soup B resp (soup_config b)) (resp_url resp)
                   (resp_request resp) (resp_status_code resp)
                   (resp_content resp) in
      set_state (state_of_response resp) ;;;
      ret resp
  end.

Definition launch_browser (soup : option node) : M unit :=
  p <- page ;;
  emit (LaunchBrowser (match soup with Some _ => soup | None => p end)).

(** Elements which can have a form owner. *)
Definition elements_with_owner_form : list string :=
  ["input"; "button"; "fieldset"; "object"; "output"; "select"; "textarea"].

Definition find_associated_elements (soup : node) (form_id : string)
  : list node :=
  flat_map (fun element => find_all soup element [("form", FValue form_id)])
           elements_with_owner_form.

(** [found_forms[-1]] *)
Definition last_item (l : list node) : M node :=
  match rev l with
  | [] => raise IndexError
  | x :: _ => ret x
  end.

(** [self.__state.form = f] *)
Definition set_form (f : Form) : M unit :=
  b <- self ;;
  let st := state b in
  set_state (mkBrowserState (st_page st) (st_url st) (Some f)
                            (st_request st)).

(** The state after [extend] changed the tree in place.  The state holds
    the tree twice, as the page and as the tag that the form selected
    before wraps: both are the same [Tag] objects, and both show the
    change. *)
Definition mutated (change : node -> node) (st : BrowserState)
  : BrowserState :=
  mkBrowserState (option_map change (st_page st)) (st_url st)
                 (option_map (fun f => mkForm (change (form_tag f)))
                             (st_form st))
                 (st_request st).

Definition tree_mutated (change : node -> node) : M unit :=
  b <- self ;;
  set_state (mutated change (state b)).

(** The selector when it is not a [Tag]: a string (a [NavigableString] is
    one), or something the CSS engine refuses. *)
Definition selector_string (selector : pyval) : option string :=
  match selector with
  | PStr s => Some s
  | PTag (Text s) => Some s
  | _ => None
  end.

Definition select_form (selector : pyval) (nr : Z) : M Form :=
  frm <- match selector with
         | PTag (Tag i n a cs) =>
             if negb (String.eqb n "form") then raise LinkNotFoundError
             else ret (Tag i n a cs)
         | _ =>
             soup <- page_object ;;
             match selector_string selector with
             | None => raise TypeError
             | Some sel =>
                 let found_forms := select (css B) soup sel (nr + 1) in
                 if negb (Z.of_nat (length found_forms) =? nr + 1)%Z then
                   b <- self ;;
                   when (debug b)
                        (emit (PrintSelectFormFailed selector) ;;;
                         launch_browser None) ;;;
                   raise LinkNotFoundError
                 else last_item found_forms
             end
         end ;;
  frm <- match get_attr "id" frm with
         | Some form_id =>
             soup <- page_object ;;
             let new_elements := find_associated_elements soup form_id in
             if meets_self frm new_elements then
               tree_mutated (extend frm (before_self frm new_elements)) ;;;
               raise insert_into_itself
             else
               tree_mutated (extend frm new_elements) ;;;
               ret (extend frm new_elements frm)
         | None => ret frm
         end ;;
  set_form (mkForm frm) ;;;
  form.

Definition _merge_referer (kwargs : requests_kwargs) : M requests_kwargs :=
  referer <- url ;;
  let headers :=
    CaseInsensitiveDict.make
      (match kw_headers kwargs with Some d => d | None => [] end) in
  match referer with
  | Some r =>
      if negb (CaseInsensitiveDict.contains "Referer" headers) then
        ret (mkRequestsKwargs
               (Some (CaseInsensitiveDict.items
                        (CaseInsensitiveDict.setitem "Referer" r headers)))
               (kw_other kwargs))
      else ret kwargs
  | None => ret kwargs
  end.

Definition submit_selected (btnName : pyval) (update_state : bool)
           (kwargs : requests_kwargs) : M Response :=
  f <- form ;;
  h <- the_log ;;
  emit (ChooseSubmit f btnName) ;;;
  match choose_submit B h f btnName with
  | Some e => raise e
  | None =>
      kwargs <- _merge_referer kwargs ;;
      b <- self ;;
      h <- the_log ;;
      emit (BrowserSubmit (st_form (state b)) (st_url (state b)) kwargs) ;;;
      resp <- lift_exn (Browser_submit B h (st_form (state b))
                                       (st_url (state b)) kwargs) ;;
      when update_state (set_state (state_of_response resp)) ;;;
      ret resp
  end.

Fixpoint has_key (k : string) (d : list (string * attr_filter)) : bool :=
  match d with
  | [] => false
  | (k', _) :: rest => String.eqb k' k || has_key k rest
  end.

(** [a['href']] of a link that [find_all('a', href=True)] returned. *)
Definition href (a : node) : string :=
  match get_attr "href" a with Some h => h | None => "" end.

(** [links], with [url_regex], [link_text] and the other keywords.  A
    second [href] keyword clashes with the one [links] passes itself.  A
    [NavigableString] is a [str] for [re.search] and for [==];
    [re.search] refuses a pattern that is neither a string nor a compiled
    expression, when it is reached, and a text is equal to no other
    value. *)
Definition links (url_regex link_text : pyval)
           (kwargs : list (string * attr_filter)) : M (list node) :=
  soup <- page_object ;;
  if has_key "href" kwargs then raise TypeError
  else
    let all_links := find_all soup "a" (("href", FPresent) :: kwargs) in
    all_links <- match url_regex with
                 | PNone => ret all_links
                 | PStr re | PTag (Text re) =>
                     ret (filter (fun a => re_search B re (href a)) all_links)
                 | _ =>
                     match all_links with
                     | [] => ret []
                     | _ :: _ => raise TypeError
                     end
                 end ;;
    match link_text with
    | PNone => ret all_links
    | PStr s | PTag (Text s) =>
        ret (filter (fun a => String.eqb (text a) s) all_links)
    | _ => ret []
    end.

Definition value_or_none (v : option pyval) : pyval :=
  match v with Some x => x | None => PNone end.

(** [self.links] on a keyword dictionary. *)
Definition links_kw (kwargs : bs4_kwargs) : M (list node) :=
  links (value_or_none (kw_url_regex kwargs))
        (value_or_none (kw_link_text kwargs)) (kw_filters kwargs).

Fixpoint for_each {A} (f : A -> M unit) (l : list A) : M unit :=
  match l with
  | [] => ret tt
  | x :: rest => f x ;;; for_each f rest
  end.

Definition list_links (kwargs : bs4_kwargs) : M unit :=
  emit PrintLinksHeader ;;;
  ls <- links_kw kwargs ;;
  for_each (fun link => emit (PrintLink link)) ls.

Definition find_link (kwargs : bs4_kwargs) : M node :=
  ls <- links_kw kwargs ;;
  match ls with
  | [] => raise LinkNotFoundError
  | first :: _ => ret first
  end.

(** Where the dictionary that [follow_link] and [download_link] pass on
    lives: one of the two shared defaults, or an object of the caller. *)
Inductive dict_ref : Type :=
| FollowLinkDefault
| DownloadLinkDefault
| CallerDict.

(** The dictionary behind [r] now holds [d]. *)
Definition assign (r : dict_ref) (d : bs4_kwargs) : M unit :=
  fun s =>
    let w := fst s in
    match r with
    | FollowLinkDefault =>
        ((mkWorld (log w) d (download_link_default w), snd s), Return tt)
    | DownloadLinkDefault =>
        ((mkWorld (log w) (follow_link_default w) d, snd s), Return tt)
    | CallerDict => (s, Return tt)
    end.

Definition lookup (r : dict_ref) (given : option bs4_kwargs)
  : M bs4_kwargs :=
  fun s =>
    match given, r with
    | Some d, _ => (s, Return d)
    | None, DownloadLinkDefault =>
        (s, Return (download_link_default (fst s)))
    | None, _ => (s, Return (follow_link_default (fst s)))
    end.

Definition is_link (v : pyval) : option node :=
  match v with
  | PTag (Tag i n a cs) =>
      if has_attr "href" (Tag i n a cs) then Some (Tag i n a cs) else None
  | _ => None
  end.

(** [kwargs] is the dictionary object behind [r]: the assignment to
    [kwargs['url_regex']] is seen by whoever holds it. *)
Definition _find_link_internal (r : dict_ref) (link : pyval)
           (kwargs : bs4_kwargs) : M node :=
  match is_link link with
  | Some l => ret l
  | None =>
      kwargs <- (if truthy link then
                   match kw_url_regex kwargs with
                   | Some _ => raise conflicting_argument
                   | None =>
                       let kwargs := mkBs4Kwargs (Some link)
                                                 (kw_link_text kwargs)
                                                 (kw_filters kwargs) in
                       assign r kwargs ;;; ret kwargs
                   end
                 else ret kwargs) ;;
      on_link_not_found
        (find_link kwargs)
        (d <- get_debug ;;
         when d (emit (PrintFindLinkFailed kwargs) ;;;
                 list_links empty_bs4_kwargs ;;;
                 launch_browser None))
  end.

Definition follow_link (link : pyval) (bs4_kw : option bs4_kwargs)
           (requests_kw : option requests_kwargs) (kwargs : bs4_kwargs)
  : M Response :=
  let r := match bs4_kw with Some _ => CallerDict | None => FollowLinkDefault end in
  d <- lookup r bs4_kw ;;
  let d := dict_update d kwargs in
  assign r d ;;;
  link <- _find_link_internal r link d ;;
  requests_kw <-
    _merge_referer (match requests_kw with Some k => k | None => no_kwargs end) ;;
  match get_attr "href" link with
  | None => raise (KeyError "href")
  | Some h => open_relative h requests_kw
  end.

Definition download_link (link : pyval) (file : option string)
           (bs4_kw : option bs4_kwargs)
           (requests_kw : option requests_kwargs) (kwargs : bs4_kwargs)
  : M Response :=
  let r := match bs4_kw with Some _ => CallerDict | None => DownloadLinkDefault end in
  d <- lookup r bs4_kw ;;
  let d := dict_update d kwargs in
  assign r d ;;;
  link <- _find_link_internal r link d ;;
  match get_attr "href" link with
  | None => raise (KeyError "href")
  | Some h =>
      target <- absolute_url h ;;
      requests_kw <-
        _merge_referer
          (match requests_kw with Some k => k | None => no_kwargs end) ;;
      hist <- the_log ;;
      emit (SessionGet target requests_kw) ;;;
      response <- lift_request (session_get B hist target requests_kw) ;;
      b <- self ;;
      if raise_on_404 b && (resp_status_code response =? 404)%Z then
        raise LinkNotFoundError
      else
        match file with
        | Some path =>
            hist <- the_log ;;
            emit (FileWrite path (resp_content response)) ;;;
            match file_write B hist path (resp_content response) with
            | Some c => raise (IOError c)
            | None => ret response
            end
        | None => ret response
        end
  end.

End StatefulBrowser.

(** ** Callers used in the statements *)

(** One [open] call of a sequence: its arguments, the events logged and
    the browser before it, what the call returned or raised, and the
    browser after it. *)
Record open_step : Type := mkOpenStep {
  step_url : string;
  step_kwargs : requests_kwargs;
  step_log : list event;
  step_before : StatefulBrowser;
  step_result : result Response;
  step_after : StatefulBrowser
}.

(** A caller that opens the URLs of [calls] one after the other, going on
    after a call that raised. *)
Fixpoint open_calls (B : Backend) (calls : list (string * requests_kwargs))
         (s : World * StatefulBrowser) : list open_step :=
  match calls with
  | [] => []
  | (u, kwargs) :: rest =>
      let out := open B u kwargs s in
      mkOpenStep u kwargs (log (fst s)) (snd s) (snd out) (snd (fst out))
        :: open_calls B rest (fst out)
  end.

(** The tags of [soup] that match [sel], all of them, in document order. *)
Definition all_matches (B : Backend) (soup : node) (sel : string) : list node :=
  filter (fun t => is_tag t && css B sel t) (descendants soup).

(** The tag that [select_form] wraps, from the tag it resolved: extended by
    its associated elements when it has an [id]. *)
Definition selected_tag (soup frm : node) : node :=
  match get_attr "id" frm with
  | Some form_id => extend frm (find_associated_elements soup form_id) frm
  | None => frm
  end.

(** The page after [select_form] resolved [frm]. *)
Definition selected_page (soup frm : node) : node :=
  match get_attr "id" frm with
  | Some form_id => extend frm (find_associated_elements soup form_id) soup
  | None => soup
  end.

(** [frm] names itself as its form owner: it is one of its own associated
    elements. *)
Definition own_owner (soup frm : node) : bool :=
  match get_attr "id" frm with
  | Some form_id => meets_self frm (find_associated_elements soup form_id)
  | None => false
  end.

(** What [select_form] does once it has resolved a tag [frm] that is not
    its own form owner. *)
Definition selected (s : World * StatefulBrowser) (soup frm : node)
  : (World * StatefulBrowser) * result Form :=
  let b := snd s in
  ((fst s,
    mkStatefulBrowser (debug b) (verbose b)
      (mkBrowserState (Some (selected_page soup frm)) (st_url (state b))
                      (Some (mkForm (selected_tag soup frm)))
                      (st_request (state b)))
      (raise_on_404 b) (soup_config b)),
   Return (mkForm (selected_tag soup frm))).

(** What [select_form] does with a tag that is its own form owner:
    [extend] raises when it comes to the tag itself, with the tags before
    it already moved, in the page and in the tag of the form selected
    before. *)
Definition refused (s : World * StatefulBrowser) (soup frm : node)
  : (World * StatefulBrowser) * result Form :=
  let b := snd s in
  let moved_first :=
    match get_attr "id" frm with
    | Some form_id => before_self frm (find_associated_elements soup form_id)
    | None => []
    end in
  ((fst s,
    mkStatefulBrowser (debug b) (verbose b)
      (mkBrowserState (Some (extend frm moved_first soup)) (st_url (state b))
                      (option_map
                         (fun f => mkForm (extend frm moved_first (form_tag f)))
                         (st_form (state b)))
                      (st_request (state b)))
      (raise_on_404 b) (soup_config b)),
   Raise insert_into_itself).

Definition resolved (s : World * StatefulBrowser) (soup frm : node)
  : (World * StatefulBrowser) * result Form :=
  if own_owner soup frm then refused s soup frm else selected s soup frm.

(** [a] is the same element as [b]: same identity, name and attributes. *)
Definition same_element (a b : node) : Prop :=
  tag_uid a = tag_uid b /\ tag_name a = tag_name b /\ tag_attrs a = tag_attrs b.

(** [frm] lies below [t] and none of the tags on the way down to it, [frm]
    included, is in [gone]. *)
Inductive stays (gone : list nat) (frm : node) : node -> Prop :=
| stays_child i n a cs :
    In frm cs -> kept gone frm = true -> stays gone frm (Tag i n a cs)
| stays_below i n a cs c :
    In c cs -> kept gone c = true -> stays gone frm c ->
    stays gone frm (Tag i n a cs).

(** [url_regex] and [link_text] as the caller passes them: a string, or
    [None] when left out. *)
Definition optional (v : option string) : pyval :=
  match v with Some x => PStr x | None => PNone end.

(** The keyword arguments [_merge_referer] returns, from the URL of the
    state and the keyword arguments of the caller. *)
Definition merged (referer : option string) (kwargs : requests_kwargs)
  : requests_kwargs :=
  let headers :=
    CaseInsensitiveDict.make
      (match kw_headers kwargs with Some d => d | None => [] end) in
  match referer with
  | Some r =>
      if negb (CaseInsensitiveDict.contains "Referer" headers) then
        mkRequestsKwargs
          (Some (CaseInsensitiveDict.items
                   (CaseInsensitiveDict.setitem "Referer" r headers)))
          (kw_other kwargs)
      else kwargs
  | None => kwargs
  end.

(** The [Referer] a request made with [kwargs] carries. *)
Definition referer_of (kwargs : requests_kwargs) : option string :=
  match kw_headers kwargs with
  | Some d => header "Referer" d
  | None => None
  end.

(** The keyword arguments of an outgoing request, for the events that are
    one. *)
Definition outgoing (e : event) : option requests_kwargs :=
  match e with
  | BrowserGet _ k | SessionGet _ k | BrowserSubmit _ _ k => Some k
  | _ => None
  end.

(** [m] returns or raises with the browser object as it was. *)
Definition frame {A} (m : M A) : Prop :=
  forall s, snd (fst (m s)) = snd s.

(** [m] moreover makes no request: the events it adds are prints and
    viewer launches. *)
Definition quiet {A} (m : M A) : Prop :=
  forall s,
    snd (fst (m s)) = snd s /\
    exists evs, log (fst (fst (m s))) = log (fst s) ++ evs /\
                Forall (fun e => outgoing e = None) evs.

(** The reading of the [Referer] rule that takes the header being equal
    to the URL of the state as the sign that it was injected: the request
    sent with [sent] has a [Referer] equal to the state's URL [u] if and
    only if [u] is there and the caller's [kwargs] had no [Referer]. *)
Definition referer_rule (u : option string)
           (kwargs sent : requests_kwargs) : Prop :=
  (exists r, u = Some r /\ referer_of sent = Some r)
  <-> (u <> None /\ referer_of kwargs = None).

(** From the log [before] a call to the log [after] it, every request
    that went out had keyword arguments satisfying [P]. *)
Definition sends_with (P : requests_kwargs -> Prop)
           (before after : list event) : Prop :=
  exists evs,
    after = before ++ evs /\
    Forall (fun e => forall k, outgoing e = Some k -> P k) evs.

(** ** A backend to run the browser on

    A server with three pages.  [/start] redirects to [/home]; CSS selectors
    are tag names; a pattern is a literal, anchored at the start when it
    begins with a caret. *)
Module Demo.

Fixpoint is_prefix (p s : string) : bool :=
  match p, s with
  | EmptyString, _ => true
  | String a p', String b s' => Ascii.eqb a b && is_prefix p' s'
  | String _ _, EmptyString => false
  end.

Fixpoint occurs (p s : string) : bool :=
  is_prefix p s ||
  match s with
  | EmptyString => false
  | String _ s' => occurs p s'
  end.

Definition literal_search (pattern s : string) : bool :=
  match pattern with
  | String "^"%char p => is_prefix p s
  | _ => occurs pattern s
  end.

Definition the_form : node :=
  Tag 3 "form" [("id", "f"); ("action", "/post")]
    [ Tag 4 "input" [("name", "q")] [];
      Tag 5 "a" [("href", "/b1")] [Text "second"] ].

Definition detached_input : node :=
  Tag 6 "input" [("form", "f"); ("name", "extra")] [].

Definition home : node :=
  Tag 0 "[document]" []
    [ Tag 1 "fieldset" [("form", "f")]
        [ Tag 2 "a" [("href", "/a1")] [Text "first"];
          Tag 9 "input" [("form", "f"); ("name", "inner")] [] ];
      the_form;
      detached_input;
      Tag 7 "a" [("href", "/a2")] [Text "third"];
      Tag 8 "a" [] [Text "no target"] ].

Definition result_page : node :=
  Tag 20 "[document]" [] [ Tag 21 "p" [] [Text "done"] ].

Definition request_for (u : string) (k : requests_kwargs) : Request :=
  mkRequest "GET" u
            (match kw_headers k with Some d => d | None => [] end) "".

Definition serve (u : string) (k : requests_kwargs) : Response :=
  if String.eqb u "/start" then
    mkResponse (Some home) "/home" (request_for "/home" k) 200 "home"
  else if String.eqb u "/missing" then
    mkResponse None u (request_for u k) 404 "gone"
  else
    mkResponse (Some result_page) u (request_for u k) 200 "done".

Definition backend : Backend :=
  mkBackend
    (fun sel t => name_is sel t)
    literal_search
    (fun _ u => u)
    (fun _ _ => home)
    (fun r _ => resp_soup r)
    (fun _ u k => inr (serve u k))
    (fun _ _ _ k => inr (serve "/post" k))
    (fun _ u k => inr (serve u k))
    (fun _ r => inr (serve (req_url r) (mkRequestsKwargs (Some (req_headers r)) [])))
    (fun _ _ _ => None)
    (fun _ _ _ => None).

Definition browser : StatefulBrowser := init false "lxml".

Definition start : World * StatefulBrowser := (new_world, browser).

(** The machine once [/start] is open. *)
Definition at_home : World * StatefulBrowser :=
  fst (open backend "/start" no_kwargs start).



(** A page with a form that holds a field owned by [x], and a [textarea]
    that is [x] and names itself as its form owner; and a browser on it. *)
Definition owned_elsewhere : node :=
  Tag 0 "[document]" []
    [ Tag 2 "form" [] [Tag 3 "input" [("form", "x")] []];
      Tag 4 "textarea" [("id", "x"); ("form", "x")] [] ].

Definition at_owned_elsewhere : World * StatefulBrowser :=
  (new_world,
   mkStatefulBrowser false 0
     (mkBrowserState (Some owned_elsewhere) None None None) false "lxml").

End Demo.

(** ** The rest of the interface *)

Definition get_verbose : M Z := b <- self ;; ret (verbose b).

(** [get_current_form]: the selected form or [None], without the error of
    the [form] property. *)
Definition get_current_form : M (option Form) :=
  b <- self ;; ret (st_form (state b)).

(** What [open] writes to the standard output before the request. *)
Definition progress (v : Z) (u : string) : list event :=
  if (v =? 1)%Z then [StdoutWrite "."]
  else if (v >=? 2)%Z then [StdoutWrite u] else [].

(** The world with [evs] added to its log. *)
Definition logged (w : World) (evs : list event) : World :=
  mkWorld (log w ++ evs) (follow_link_default w) (download_link_default w).

(** The browser with another state. *)
Definition with_state (b : StatefulBrowser) (st : BrowserState)
  : StatefulBrowser :=
  mkStatefulBrowser (debug b) (verbose b) st (raise_on_404 b) (soup_config b).

(** One call of the public interface. *)
Inductive call : Type :=
| CallSetDebug (d : bool)
| CallSetVerbose (v : Z)
| CallOpen (u : string) (kwargs : requests_kwargs)
| CallOpenFakePage (page_text : string) (u : option string)
                   (config : option string)
| CallOpenRelative (u : string) (kwargs : requests_kwargs)
| CallRefresh
| CallSelectForm (selector : pyval) (nr : Z)
| CallSubmitSelected (btnName : pyval) (update_state : bool)
                     (kwargs : requests_kwargs)
| CallLinks (url_regex link_text : pyval)
            (kwargs : list (string * attr_filter))
| CallListLinks (kwargs : bs4_kwargs)
| CallFindLink (kwargs : bs4_kwargs)
| CallFollowLink (link : pyval) (bs4_kw : option bs4_kwargs)
                 (requests_kw : option requests_kwargs) (kwargs : bs4_kwargs)
| CallDownloadLink (link : pyval) (file : option string)
                   (bs4_kw : option bs4_kwargs)
                   (requests_kw : option requests_kwargs)
                   (kwargs : bs4_kwargs)
| CallLaunchBrowser (soup : option node).

(** The world and the browser after the call, whether it returned or
    raised. *)
Definition perform (B : Backend) (c : call) (s : World * StatefulBrowser)
  : World * StatefulBrowser :=
  match c with
  | CallSetDebug d => fst (set_debug d s)
  | CallSetVerbose v => fst (set_verbose v s)
  | CallOpen u kwargs => fst (open B u kwargs s)
  | CallOpenFakePage page_text u config =>
      fst (open_fake_page B page_text u config s)
  | CallOpenRelative u kwargs => fst (open_relative B u kwargs s)
  | CallRefresh => fst (refresh B s)
  | CallSelectForm selector nr => fst (select_form B selector nr s)
  | CallSubmitSelected btnName update_state kwargs =>
      fst (submit_selected B btnName update_state kwargs s)
  | CallLinks url_regex link_text kwargs =>
      fst (links B url_regex link_text kwargs s)
  | CallListLinks kwargs => fst (list_links B kwargs s)
  | CallFindLink kwargs => fst (find_link B kwargs s)
  | CallFollowLink link bs4_kw requests_kw kwargs =>
      fst (follow_link B link bs4_kw requests_kw kwargs s)
  | CallDownloadLink link file bs4_kw requests_kw kwargs =>
      fst (download_link B link file bs4_kw requests_kw kwargs s)
  | CallLaunchBrowser soup => fst (launch_browser soup s)
  end.

(** A caller that makes the calls one after the other, going on after a
    call that raised. *)
Definition perform_all (B : Backend) (calls : list call)
           (s : World * StatefulBrowser) : World * StatefulBrowser :=
  fold_left (fun s c => perform B c s) calls s.

(** A navigation that came out as [out] from [s] either returned a response
    and left the browser with the state built from that response, or raised
    and left the browser as it was. *)
Definition replaced_or_kept (s : World * StatefulBrowser)
           (out : (World * StatefulBrowser) * result Response) : Prop :=
  match snd out with
  | Return resp =>
      snd (fst out) = with_state (snd s) (state_of_response resp)
  | Raise _ => snd (fst out) = snd s
  end.

(** The dictionary [follow_link] and [download_link] work on: the one
    given, or the shared default of the function. *)
Definition given_or (default : bs4_kwargs) (bs4_kw : option bs4_kwargs)
  : bs4_kwargs :=
  match bs4_kw with Some d => d | None => default end.

(** The keywords [_find_link_internal] searches with: those of the
    dictionary, with [link] as [url_regex] when [link] is true. *)
Definition search_kwargs (link : pyval) (d : bs4_kwargs) : bs4_kwargs :=
  if truthy link
  then mkBs4Kwargs (Some link) (kw_link_text d) (kw_filters d)
  else d.

(** [link] and the dictionary do not both carry a pattern. *)
Definition no_conflict (link : pyval) (d : bs4_kwargs) : Prop :=
  truthy link = true -> kw_url_regex d = None.

(** What debug mode prints and launches when a link is not found. *)
Definition link_not_found_report (soup : node) (kwargs : bs4_kwargs)
  : list event :=
  [PrintFindLinkFailed kwargs; PrintLinksHeader]
    ++ map PrintLink (find_all soup "a" [("href", FPresent)])
    ++ [LaunchBrowser (Some soup)].

(** The dictionary object [follow_link] and [download_link] hand to
    [_find_link_internal]. *)
Definition follow_ref (bs4_kw : option bs4_kwargs) : dict_ref :=
  match bs4_kw with Some _ => CallerDict | None => FollowLinkDefault end.

Definition download_ref (bs4_kw : option bs4_kwargs) : dict_ref :=
  match bs4_kw with Some _ => CallerDict | None => DownloadLinkDefault end.

(** [requests_kwargs], with its default. *)
Definition given_requests (requests_kw : option requests_kwargs)
  : requests_kwargs :=
  match requests_kw with Some k => k | None => no_kwargs end.

(** [m] leaves the two shared default dictionaries as they are. *)
Definition keeps_defaults {A} (m : M A) : Prop :=
  forall s,
    follow_link_default (fst (fst (m s))) = follow_link_default (fst s) /\
    download_link_default (fst (fst (m s))) = download_link_default (fst s).

(** A state from which [refresh] can go out has a URL. *)
Definition refreshable_has_url (b : StatefulBrowser) : Prop :=
  st_request (state b) <> None -> st_url (state b) <> None.

Definition sets_debug (c : call) : bool :=
  match c with CallSetDebug _ => true | _ => false end.

Definition sets_verbose (c : call) : bool :=
  match c with CallSetVerbose _ => true | _ => false end.

(** The browser [b'] has the settings of [b], and a URL if it can be
    refreshed, provided [b] had. *)
Definition kept_by_call (b b' : StatefulBrowser) : Prop :=
  raise_on_404 b' = raise_on_404 b /\
  soup_config b' = soup_config b /\
  debug b' = debug b /\
  verbose b' = verbose b /\
  (refreshable_has_url b -> refreshable_has_url b').

(** The [headers] a call passes on, an empty dictionary when it passes
    none. *)
Definition headers_of (kwargs : requests_kwargs) : dict :=
  match kw_headers kwargs with Some d => d | None => [] end.

(** The store of a [CaseInsensitiveDict] as the class keeps it: one entry
    for each lowered key, filed under the lowered form of the key it holds. *)
Definition well_keyed (store : CaseInsensitiveDict.t) : Prop :=
  NoDup (map fst store) /\
  Forall (fun e => fst e = lower (fst (snd e))) store.

(** * Properties *)

(** ** Calls that leave the browser alone *)

Lemma quiet_frame {A} (m : M A) : quiet m -> frame m.
Proof. intros H s. apply H. Qed.

Lemma frame_ret {A} (a : A) : frame (ret a).
Proof. intro s. reflexivity. Qed.

Lemma frame_raise {A} (e : exn) : frame (@raise A e).
Proof. intro s. reflexivity. Qed.

Lemma frame_bind {A C} (m : M A) (k : A -> M C) :
  frame m -> (forall a, frame (k a)) -> frame (bind m k).
Proof.
  intros Hm Hk s. unfold bind.
  specialize (Hm s). destruct (m s) as [s' [a | e]]; simpl in *.
  - rewrite Hk. exact Hm.
  - exact Hm.
Qed.

Lemma frame_emit (e : event) : frame (emit e).
Proof. intro s. reflexivity. Qed.

Lemma frame_self : frame self.
Proof. intro s. reflexivity. Qed.

Lemma frame_the_log : frame the_log.
Proof. intro s. reflexivity. Qed.

Lemma frame_lift_exn {A} (r : exn + A) : frame (lift_exn r).
Proof. destruct r; intro s; reflexivity. Qed.

Lemma frame_lift_request {A} (r : nat + A) : frame (lift_request r).
Proof. destruct r; intro s; reflexivity. Qed.

Lemma quiet_ret {A} (a : A) : quiet (ret a).
Proof.
  intro s. split; [reflexivity|]. exists []. simpl.
  rewrite app_nil_r. auto.
Qed.

Lemma quiet_raise {A} (e : exn) : quiet (@raise A e).
Proof.
  intro s. split; [reflexivity|]. exists []. simpl.
  rewrite app_nil_r. auto.
Qed.

Lemma quiet_bind {A C} (m : M A) (k : A -> M C) :
  quiet m -> (forall a, quiet (k a)) -> quiet (bind m k).
Proof.
  intros Hm Hk s. unfold bind.
  destruct (Hm s) as [Hb [evs [Hl Hq]]].
  destruct (m s) as [s' [a | e]]; simpl in *.
  - destruct (Hk a s') as [Hb' [evs' [Hl' Hq']]].
    split; [congruence|].
    exists (evs ++ evs'). split.
    + rewrite Hl', Hl, app_assoc. reflexivity.
    + apply Forall_app. auto.
  - split; [exact Hb|]. exists evs. auto.
Qed.

Lemma quiet_emit (e : event) : outgoing e = None -> quiet (emit e).
Proof.
  intros He s. split; [reflexivity|]. exists [e]. simpl. auto.
Qed.

Lemma quiet_self : quiet self.
Proof.
  intro s. split; [reflexivity|]. exists []. simpl.
  rewrite app_nil_r. auto.
Qed.

Lemma quiet_the_log : quiet the_log.
Proof.
  intro s. split; [reflexivity|]. exists []. simpl.
  rewrite app_nil_r. auto.
Qed.

Lemma quiet_on_link_not_found {A} (m : M A) (h : M unit) :
  quiet m -> quiet h -> quiet (on_link_not_found m h).
Proof.
  intros Hm Hh s. unfold on_link_not_found.
  destruct (Hm s) as [Hb [evs [Hl Hq]]].
  destruct (m s) as [s' [a | e]]; simpl in *.
  - split; [exact Hb|]. exists evs. auto.
  - destruct e; try (split; [exact Hb|]; exists evs; auto).
    destruct (Hh s') as [Hb' [evs' [Hl' Hq']]].
    destruct (h s') as [s'' [u | e']]; simpl in *;
      (split; [congruence|]; exists (evs ++ evs'); split;
       [rewrite Hl', Hl, app_assoc; reflexivity | apply Forall_app; auto]).
Qed.

Create HintDb quiet.

(** Goes through a computation built from the operations above. *)
Ltac quiet_step :=
  first
    [ solve [ auto with quiet ]
    | apply quiet_ret | apply quiet_raise | apply quiet_self
    | apply quiet_the_log
    | apply quiet_emit; reflexivity
    | apply quiet_bind; [ | intro ]
    | apply quiet_on_link_not_found
    | match goal with
      | |- quiet (match ?x with _ => _ end) => destruct x
      | |- quiet (when ?c _) => unfold when
      end ].

Ltac quiet_tac := repeat quiet_step.

Section Frames.

Variable B : Backend.

Lemma quiet_page : quiet page.
Proof. unfold page. quiet_tac. Qed.

Lemma quiet_url : quiet url.
Proof. unfold url. quiet_tac. Qed.

Lemma quiet_get_debug : quiet get_debug.
Proof. unfold get_debug. quiet_tac. Qed.

Hint Resolve quiet_page quiet_url quiet_get_debug : quiet.

Lemma quiet_page_object : quiet page_object.
Proof. unfold page_object. quiet_tac. Qed.

Lemma quiet_absolute_url u : quiet (absolute_url B u).
Proof. unfold absolute_url. quiet_tac. Qed.

Lemma quiet_launch_browser soup : quiet (launch_browser soup).
Proof. unfold launch_browser. quiet_tac. Qed.

Lemma quiet_assign r d : quiet (assign r d).
Proof.
  intro s. destruct r; (split; [reflexivity|]); exists []; simpl;
    rewrite app_nil_r; auto.
Qed.

Lemma quiet_lookup r g : quiet (lookup r g).
Proof.
  intro s. unfold lookup. destruct g, r; (split; [reflexivity|]);
    exists []; simpl; rewrite app_nil_r; auto.
Qed.

Hint Resolve quiet_page_object quiet_absolute_url quiet_launch_browser
     quiet_assign quiet_lookup : quiet.

Lemma quiet_links r t fs : quiet (links B r t fs).
Proof. unfold links. quiet_tac. Qed.

Lemma quiet_links_kw k : quiet (links_kw B k).
Proof. unfold links_kw. apply quiet_links. Qed.

Hint Resolve quiet_links quiet_links_kw : quiet.

Lemma quiet_for_each {A} (f : A -> M unit) l :
  (forall x, quiet (f x)) -> quiet (for_each f l).
Proof.
  intro Hf. induction l as [| x l IH]; simpl.
  - apply quiet_ret.
  - apply quiet_bind; auto.
Qed.

Lemma quiet_list_links k : quiet (list_links B k).
Proof.
  unfold list_links. quiet_tac. apply quiet_for_each.
  intro x. apply quiet_emit. reflexivity.
Qed.

Lemma quiet_find_link k : quiet (find_link B k).
Proof. unfold find_link. quiet_tac. Qed.

Hint Resolve quiet_list_links quiet_find_link : quiet.

Lemma quiet_find_link_internal r link k :
  quiet (_find_link_internal B r link k).
Proof. unfold _find_link_internal. quiet_tac. Qed.

Lemma quiet_merge_referer k : quiet (_merge_referer k).
Proof. unfold _merge_referer. quiet_tac. Qed.

End Frames.

#[export] Hint Resolve quiet_page quiet_url quiet_get_debug quiet_page_object
  quiet_absolute_url quiet_launch_browser quiet_assign quiet_lookup
  quiet_links quiet_links_kw quiet_list_links quiet_find_link
  quiet_find_link_internal quiet_merge_referer : quiet.

Ltac frame_step :=
  first
    [ solve [ apply quiet_frame; auto with quiet ]
    | apply frame_ret | apply frame_raise | apply frame_self
    | apply frame_the_log | apply frame_emit
    | apply frame_lift_exn | apply frame_lift_request
    | apply frame_bind; [ | intro ]
    | match goal with
      | |- frame (match ?x with _ => _ end) => destruct x
      | |- frame (when ?c _) => unfold when
      end ].

Ltac frame_tac := repeat frame_step.

(** ** Navigation *)

Lemma open_run (B : Backend) (u : string) (kwargs : requests_kwargs)
      (s : World * StatefulBrowser) :
  let h := log (fst s) ++ progress (verbose (snd s)) u in
  open B u kwargs s
  = match Browser_get B h u kwargs with
    | inr resp =>
        ((logged (fst s) (progress (verbose (snd s)) u ++ [BrowserGet u kwargs]),
          with_state (snd s) (state_of_response resp)), Return resp)
    | inl e =>
        ((logged (fst s) (progress (verbose (snd s)) u ++ [BrowserGet u kwargs]),
          snd s), Raise e)
    end.
Proof.
  destruct s as [[l fl dl] b].
  unfold open, get, bind, self, the_log, emit, when, set_state, lift_exn,
    ret, raise, progress, logged, with_state; simpl.
  destruct (verbose b =? 1)%Z; simpl.
  - destruct (Browser_get B _ u kwargs); simpl;
      rewrite <- app_assoc; reflexivity.
  - destruct (verbose b >=? 2)%Z; simpl.
    + destruct (Browser_get B _ u kwargs); simpl;
        rewrite <- app_assoc; reflexivity.
    + rewrite !app_nil_r.
      destruct (Browser_get B l u kwargs); simpl; reflexivity.
Qed.

Lemma open_relative_is_open (B : Backend) (u : string)
      (kwargs : requests_kwargs) (s : World * StatefulBrowser) :
  open_relative B u kwargs s
  = open B (urljoin B (st_url (state (snd s))) u) kwargs s.
Proof. reflexivity. Qed.

Lemma open_outcome (B : Backend) (u : string) (kwargs : requests_kwargs)
      (s : World * StatefulBrowser) :
  match snd (open B u kwargs s) with
  | Return resp =>
      (exists h, Browser_get B h u kwargs = inr resp) /\
      state (snd (fst (open B u kwargs s))) = state_of_response resp
  | Raise _ => snd (fst (open B u kwargs s)) = snd s
  end.
Proof.
  rewrite open_run.
  destruct (Browser_get B _ u kwargs) as [e | resp] eqn:E; simpl; eauto.
Qed.

(** What the steps of a sequence of [open] calls are: one for each call,
    in order, each starting from the browser the one before it left. *)
Lemma open_calls_chain (B : Backend)
      (calls : list (string * requests_kwargs))
      (s : World * StatefulBrowser) :
  map (fun st => (step_url st, step_kwargs st)) (open_calls B calls s)
  = calls /\
  (forall st, nth_error (open_calls B calls s) 0 = Some st ->
              step_before st = snd s /\ step_log st = log (fst s)) /\
  (forall n st1 st2,
      nth_error (open_calls B calls s) n = Some st1 ->
      nth_error (open_calls B calls s) (S n) = Some st2 ->
      step_before st2 = step_after st1).
Proof.
  revert s. induction calls as [| [u kwargs] rest IH]; intro s; simpl.
  - split; [reflexivity |]. split.
    + intros st H. discriminate H.
    + intros [| n] st1 st2 H; discriminate H.
  - destruct (IH (fst (open B u kwargs s))) as [Hmap [Hfirst Hnext]].
    split; [rewrite Hmap; reflexivity |]. split.
    + intros st H. inversion H; subst. split; reflexivity.
    + intros [| n] st1 st2 H1 H2; simpl in H1, H2.
      * inversion H1; subst. simpl.
        destruct (Hfirst st2 H2) as [Hb _]. exact Hb.
      * exact (Hnext n st1 st2 H1 H2).
Qed.

(** C1.  Whatever the sequence of [open] calls, there is one step for each
    call, each starting from the browser the step before it left, and in
    each step [open] returns the response [Browser.get] gives for the URL
    and the keyword arguments of the call, and leaves a state made of that
    response's soup as the page, that response's URL (the final one,
    whatever URL was asked for) as the URL, no selected form, and that
    response's request, the settings untouched; when [Browser.get] raises,
    [open] raises the same and the browser is as it was. *)
Theorem open_state_is_the_response (B : Backend)
        (calls : list (string * requests_kwargs))
        (s : World * StatefulBrowser) :
  let steps := open_calls B calls s in
  map (fun st => (step_url st, step_kwargs st)) steps = calls /\
  (forall st, nth_error steps 0 = Some st -> step_before st = snd s) /\
  (forall n st1 st2,
      nth_error steps n = Some st1 -> nth_error steps (S n) = Some st2 ->
      step_before st2 = step_after st1) /\
  Forall
    (fun st =>
       let before := step_before st in
       let asked := step_log st ++ progress (verbose before) (step_url st) in
       match Browser_get B asked (step_url st) (step_kwargs st) with
       | inr resp =>
           step_result st = Return resp /\
           state (step_after st)
           = mkBrowserState (resp_soup resp) (Some (resp_url resp)) None
                            (Some (resp_request resp)) /\
           step_after st = with_state before (state (step_after st))
       | inl e =>
           step_result st = Raise e /\ step_after st = before
       end)
    steps.
Proof.
  intro steps. subst steps.
  destruct (open_calls_chain B calls s) as [Hmap [Hfirst Hnext]].
  split; [exact Hmap |].
  split; [intros st H; apply (Hfirst st H) |].
  split; [exact Hnext |].
  clear Hmap Hfirst Hnext.
  revert s. induction calls as [| [u kwargs] rest IH]; intro s; simpl.
  - constructor.
  - constructor; [| apply IH]. simpl.
    rewrite open_run.
    destruct (Browser_get B _ u kwargs) as [e | resp]; simpl.
    + split; reflexivity.
    + split; [reflexivity |]. split; reflexivity.
Qed.

(** The URL of the state is the one the response ends at, not the one
    that was opened. *)
Example open_follows_redirect :
  st_url (state (snd Demo.at_home)) = Some "/home".
Proof. reflexivity. Qed.

(** C2.  [submit_selected] with [update_state=False] leaves the browser
    object, and with it the whole state (page, URL, selected form and
    request), as it was before the call, whatever the response holds. *)
Theorem submit_selected_without_update (B : Backend) (btnName : pyval)
        (kwargs : requests_kwargs) (s : World * StatefulBrowser) :
  snd (fst (submit_selected B btnName false kwargs s)) = snd s.
Proof.
  revert s. change (frame (submit_selected B btnName false kwargs)).
  unfold submit_selected, form. frame_tac.
Qed.

(** C8.  [download_link] returns or raises with the browser object, and so
    the state, as it was before the call. *)
Theorem download_link_keeps_state (B : Backend) (link : pyval)
        (file : option string) (bs4_kw : option bs4_kwargs)
        (requests_kw : option requests_kwargs) (kwargs : bs4_kwargs)
        (s : World * StatefulBrowser) :
  snd (fst (download_link B link file bs4_kw requests_kw kwargs s)) = snd s.
Proof.
  revert s.
  change (frame (download_link B link file bs4_kw requests_kw kwargs)).
  unfold download_link. frame_tac.
Qed.

Lemma refresh_without_request (B : Backend) (s : World * StatefulBrowser) :
  st_request (state (snd s)) = None ->
  refresh B s = (s, Raise unrefreshable).
Proof.
  intro H. unfold refresh, bind, self. simpl. rewrite H. reflexivity.
Qed.

Lemma refresh_with_request (B : Backend) (s : World * StatefulBrowser)
      (old : Request) :
  st_request (state (snd s)) = Some old ->
  log (fst (fst (refresh B s))) = log (fst s) ++ [SessionSend old] /\
  match session_send B (log (fst s)) old with
  | inr resp =>
      let resp' :=
        mkResponse (add_soup B resp (soup_config (snd s))) (resp_url resp)
                   (resp_request resp) (resp_status_code resp)
                   (resp_content resp) in
      snd (refresh B s) = Return resp' /\
      state (snd (fst (refresh B s))) = state_of_response resp'
  | inl c =>
      snd (refresh B s) = Raise (RequestException c) /\
      snd (fst (refresh B s)) = snd s
  end.
Proof.
  intro H. destruct s as [w b]. simpl in H.
  unfold refresh, bind, self, the_log, emit, lift_request, set_state, ret,
    raise; simpl.
  rewrite H. simpl.
  destruct (session_send B (log w) old) as [c | resp]; simpl; auto.
Qed.

(** C3.  [refresh] raises the not-refreshable error exactly when the state
    holds no request, and then changes nothing; so it does on a browser
    that never opened a page and right after [open_fake_page].  After an
    [open] that returned, [refresh] sends the request of that response
    again and, when the session answers, builds the state from the new
    response. *)
Theorem refresh_unrefreshable (B : Backend) (s : World * StatefulBrowser) :
  (snd (refresh B s) = Raise unrefreshable
   <-> st_request (state (snd s)) = None) /\
  (st_request (state (snd s)) = None -> fst (refresh B s) = s) /\
  (forall raise404 config,
      snd (refresh B (fst s, init raise404 config)) = Raise unrefreshable) /\
  (forall page_text u config,
      snd (refresh B (fst (open_fake_page B page_text u config s)))
      = Raise unrefreshable) /\
  (forall u kwargs resp,
      snd (open B u kwargs s) = Return resp ->
      let s1 := fst (open B u kwargs s) in
      log (fst (fst (refresh B s1)))
      = log (fst s1) ++ [SessionSend (resp_request resp)] /\
      forall resp2,
        session_send B (log (fst s1)) (resp_request resp) = inr resp2 ->
        state (snd (fst (refresh B s1)))
        = mkBrowserState (add_soup B resp2 (soup_config (snd s1)))
                         (Some (resp_url resp2)) None
                         (Some (resp_request resp2))).
Proof.
  split; [| split; [| split; [| split]]].
  - split.
    + intro H. destruct (st_request (state (snd s))) as [old |] eqn:E; auto.
      destruct (refresh_with_request B s old E) as [_ H'].
      destruct (session_send B (log (fst s)) old);
        destruct H' as [H' _]; rewrite H' in H; discriminate H.
    + intro H. rewrite (refresh_without_request B s H). reflexivity.
  - intro H. rewrite (refresh_without_request B s H). reflexivity.
  - intros. rewrite refresh_without_request; reflexivity.
  - intros. rewrite refresh_without_request; reflexivity.
  - intros u kwargs resp H s1.
    pose proof (open_outcome B u kwargs s) as Ho. rewrite H in Ho.
    destruct Ho as [_ Ho]. fold s1 in Ho.
    assert (E : st_request (state (snd s1)) = Some (resp_request resp))
      by (rewrite Ho; reflexivity).
    destruct (refresh_with_request B s1 _ E) as [Hl Hr].
    split; [exact Hl |].
    intros resp2 H2. rewrite H2 in Hr. destruct Hr as [_ Hr]. exact Hr.
Qed.

(** ** Selecting a form *)

Lemma firstn_snoc {A} (l : list A) (n : nat) (x : A) :
  nth_error l n = Some x -> firstn (S n) l = firstn n l ++ [x].
Proof.
  revert n. induction l as [| y l IH]; intros [| n] H; simpl in *;
    try discriminate.
  - inversion H. reflexivity.
  - rewrite <- (IH n H). reflexivity.
Qed.

Lemma last_item_firstn (l : list node) (n : nat) (x : node)
      (s : World * StatefulBrowser) :
  nth_error l n = Some x -> last_item (firstn (S n) l) s = (s, Return x).
Proof.
  intro H. unfold last_item. rewrite (firstn_snoc l n x H), rev_app_distr.
  reflexivity.
Qed.

Lemma same_element_graft (target : nat) (moved : list node) (gone : list nat)
      (t : node) :
  same_element (graft target moved gone t) t.
Proof. destruct t; repeat split. Qed.

Lemma same_element_prune (gone : list nat) (t : node) :
  same_element (prune gone t) t.
Proof. destruct t; repeat split. Qed.

Lemma same_element_extend (receiver : node) (tags : list node) (t : node) :
  same_element (extend receiver tags t) t.
Proof.
  destruct receiver; simpl.
  - repeat split.
  - apply same_element_graft.
Qed.

Lemma same_element_selected_tag (soup frm : node) :
  same_element (selected_tag soup frm) frm.
Proof.
  unfold selected_tag. destruct (get_attr "id" frm).
  - apply same_element_extend.
  - repeat split.
Qed.

Lemma select_form_tag (B : Backend) (s : World * StatefulBrowser)
      (soup : node) (nr : Z) i n a cs :
  st_page (state (snd s)) = Some soup ->
  select_form B (PTag (Tag i n a cs)) nr s
  = if String.eqb n "form" then resolved s soup (Tag i n a cs)
    else (s, Raise LinkNotFoundError).
Proof.
  destruct s as [w [d v [p u f r] r404 cfg]]. simpl. intro H. subst p.
  unfold select_form, resolved, refused, own_owner, selected, selected_tag,
    selected_page.
  destruct (String.eqb n "form"); simpl; [| reflexivity].
  unfold bind at 1. simpl.
  destruct (get_attr "id" (Tag i n a cs)); [| reflexivity].
  unfold bind, page_object, page, self, ret; simpl.
  destruct (existsb (has_uid i) _); reflexivity.
Qed.

Lemma select_form_css (B : Backend) (s : World * StatefulBrowser)
      (soup : node) (nr : Z) (sel : string) :
  st_page (state (snd s)) = Some soup ->
  (0 <= nr)%Z ->
  match nth_error (all_matches B soup sel) (Z.to_nat nr) with
  | Some frm => select_form B (PStr sel) nr s = resolved s soup frm
  | None => snd (select_form B (PStr sel) nr s) = Raise LinkNotFoundError
  end.
Proof.
  destruct s as [w [d v [p u f r] r404 cfg]]. simpl. intros H Hnr. subst p.
  assert (Hsel : select (css B) soup sel (nr + 1)
                 = firstn (S (Z.to_nat nr)) (all_matches B soup sel)).
  { unfold select, all_matches.
    destruct (nr + 1 <? 1)%Z eqn:E; [apply Z.ltb_lt in E; lia |].
    replace (Z.to_nat (nr + 1)) with (S (Z.to_nat nr)) by lia. reflexivity. }
  destruct (nth_error (all_matches B soup sel) (Z.to_nat nr)) as [frm |] eqn:E.
  - assert (Hlen : (Z.of_nat (length (select (css B) soup sel (nr + 1)))
                    =? nr + 1)%Z = true).
    { rewrite Hsel, length_firstn. apply Z.eqb_eq.
      assert (Z.to_nat nr < length (all_matches B soup sel))
        by (apply nth_error_Some; congruence).
      lia. }
    unfold select_form, resolved, refused, own_owner, selected, selected_tag,
      selected_page.
    unfold bind at 1. unfold bind at 1. simpl.
    rewrite Hlen. simpl. rewrite Hsel, (last_item_firstn _ _ _ _ E).
    unfold bind at 1. simpl.
    destruct (get_attr "id" frm); [| reflexivity].
    unfold bind, page_object, page, self, ret; simpl.
    destruct (meets_self frm _); reflexivity.
  - assert (Hlen : (Z.of_nat (length (select (css B) soup sel (nr + 1)))
                    =? nr + 1)%Z = false).
    { rewrite Hsel, length_firstn. apply Z.eqb_neq.
      apply nth_error_None in E. lia. }
    unfold select_form.
    unfold bind at 1. unfold bind at 1. simpl.
    rewrite Hlen. simpl. destruct d; reflexivity.
Qed.

Lemma resolved_not_link_not_found (s : World * StatefulBrowser)
      (soup frm : node) :
  snd (resolved s soup frm) <> Raise LinkNotFoundError.
Proof.
  unfold resolved, refused, selected.
  destruct (own_owner soup frm); simpl; discriminate.
Qed.



(** ** A form is never its own form owner *)

Lemma uid_in_uids (i : nat) (l : list node) (x : node) :
  In x l -> has_uid i x = true -> In i (uids l).
Proof.
  intros Hin Hx. unfold uids. apply in_flat_map. exists x.
  split; [exact Hin |].
  destruct x as [y | j n a cs]; [discriminate Hx |].
  simpl in Hx. apply Nat.eqb_eq in Hx. subst. left. reflexivity.
Qed.

Lemma unique_by_uid (i : nat) (l : list node) (x y : node) :
  NoDup (uids l) ->
  In x l -> In y l -> has_uid i x = true -> has_uid i y = true -> x = y.
Proof.
  induction l as [| t l IH]; intros Hnd Hx Hy Hix Hiy; [contradiction |].
  assert (Htail : NoDup (uids l)).
  { destruct t; simpl in Hnd; [exact Hnd | inversion Hnd; assumption]. }
  assert (Hhead : forall z, In z l -> has_uid i z = true ->
                            has_uid i t = true -> False).
  { intros z Hz Hiz Hit. destruct t as [s | j n a cs]; [discriminate Hit |].
    simpl in Hit. apply Nat.eqb_eq in Hit. subst j.
    simpl in Hnd. inversion Hnd as [| ? ? Hnot _]. apply Hnot.
    exact (uid_in_uids i l z Hz Hiz). }
  destruct Hx as [Hx | Hx], Hy as [Hy | Hy].
  - congruence.
  - subst t. exfalso. exact (Hhead y Hy Hiy Hix).
  - subst t. exfalso. exact (Hhead x Hx Hix Hiy).
  - exact (IH Htail Hx Hy Hix Hiy).
Qed.

Lemma associated_is_owner_kind (soup : node) (form_id : string) (e : node) :
  In e (find_associated_elements soup form_id) ->
  In e (descendants soup) /\
  exists kind, In kind elements_with_owner_form /\ tag_name e = Some kind.
Proof.
  unfold find_associated_elements. intro H.
  apply in_flat_map in H. destruct H as [kind [Hk H]].
  unfold find_all in H. apply filter_In in H. destruct H as [Hin Hf].
  split; [exact Hin |]. exists kind. split; [exact Hk |].
  apply andb_true_iff in Hf. destruct Hf as [Hn _].
  destruct e as [s | i n a cs]; [discriminate Hn |].
  simpl in Hn. apply String.eqb_eq in Hn. subst. reflexivity.
Qed.

(** In a page whose tags are all distinct objects, a [form] tag is not
    among the elements associated to it: they are of other kinds. *)
Lemma form_is_not_its_own_owner (soup frm : node) :
  NoDup (uids (descendants soup)) ->
  In frm (descendants soup) ->
  tag_name frm = Some "form" ->
  own_owner soup frm = false.
Proof.
  intros Hnd Hin Hname. unfold own_owner.
  destruct (get_attr "id" frm) as [form_id |]; [| reflexivity].
  destruct frm as [s | i n a cs]; [reflexivity |].
  simpl. destruct (existsb (has_uid i) _) eqn:E; [| reflexivity].
  exfalso. apply existsb_exists in E. destruct E as [e [He Hie]].
  destruct (associated_is_owner_kind soup form_id e He)
    as [Hed [kind [Hk Hkn]]].
  assert (Heq : e = Tag i n a cs).
  { apply (unique_by_uid i (descendants soup)); auto.
    simpl. apply Nat.eqb_refl. }
  subst e. rewrite Hname in Hkn. inversion Hkn; subst kind.
  simpl in Hk. repeat (destruct Hk as [Hk | Hk]; [discriminate Hk |]).
  exact Hk.
Qed.


Lemma in_firstn {A} (n : nat) (l : list A) (x : A) :
  In x (firstn n l) -> In x l.
Proof.
  revert l. induction n as [| n IH]; intros [| y l] H; simpl in *;
    try contradiction.
  destruct H as [H | H]; [left; exact H | right; apply IH; exact H].
Qed.

Lemma in_select (B : Backend) (soup : node) (sel : string) (limit : Z)
      (x : node) :
  In x (select (css B) soup sel limit) -> In x (all_matches B soup sel).
Proof.
  unfold select, all_matches. destruct (limit <? 1)%Z; intro H.
  - exact H.
  - eapply in_firstn. exact H.
Qed.

Lemma last_item_in (l : list node) (s s' : World * StatefulBrowser)
      (x : node) :
  last_item l s = (s', Return x) -> s' = s /\ In x l.
Proof.
  unfold last_item. destruct (rev l) as [| y r] eqn:E; intro H.
  - discriminate H.
  - inversion H; subst. split; [reflexivity |].
    apply in_rev. rewrite E. left. reflexivity.
Qed.

(** A [select_form] that returns has resolved a tag: the one it was given,
    or one of the matches of the selector. *)
Lemma select_form_returns (B : Backend) (s s' : World * StatefulBrowser)
      (soup : node) (selector : pyval) (nr : Z) (F : Form) :
  st_page (state (snd s)) = Some soup ->
  select_form B selector nr s = (s', Return F) ->
  exists frm,
    own_owner soup frm = false /\
    (s', Return F) = selected s soup frm /\
    (selector = PTag frm \/
     exists sel, selector_string selector = Some sel /\
                 In frm (all_matches B soup sel)).
Proof.
  intros Hpage H.
  assert (Hres : forall frm,
             (s', Return F) = resolved s soup frm ->
             own_owner soup frm = false /\
             (s', Return F) = selected s soup frm).
  { intros frm E. unfold resolved in E.
    destruct (own_owner soup frm); [discriminate E | auto]. }
  destruct selector as [| b | sel | [sel | i n a cs]];
    try (rewrite (select_form_tag B s soup nr i n a cs Hpage) in H;
         destruct (String.eqb n "form"); [| discriminate H];
         exists (Tag i n a cs);
         destruct (Hres (Tag i n a cs) (eq_sym H)) as [H1 H2];
         split; [exact H1 | split; [exact H2 | left; reflexivity]]);
    destruct s as [w [d v [p u f r] r404 cfg]]; simpl in Hpage; subst p;
    try discriminate H;
    (unfold select_form in H; unfold bind at 1 in H; unfold bind at 1 in H;
     simpl in H;
     destruct (negb (Z.of_nat (length (select (css B) soup sel (nr + 1)))
                     =? nr + 1)%Z);
     [ destruct d; discriminate H |];
     destruct (last_item (select (css B) soup sel (nr + 1)) _)
       as [s1 [frm | e]] eqn:El; [| discriminate H];
     apply last_item_in in El; destruct El as [-> Hin];
     exists frm;
     assert (E : (s', Return F)
                 = resolved (w, mkStatefulBrowser d v
                                  (mkBrowserState (Some soup) u f r) r404 cfg)
                            soup frm);
     [ rewrite <- H;
       unfold resolved, refused, own_owner, selected, selected_tag,
         selected_page;
       unfold bind at 1; simpl;
       destruct (get_attr "id" frm); [| reflexivity];
       unfold bind, page_object, page, self, ret; simpl;
       destruct (meets_self frm _); reflexivity
     | destruct (Hres frm E) as [H1 H2];
       split; [exact H1 | split; [exact H2 |]];
       right; exists sel; split;
       [ reflexivity | eapply in_select; exact Hin ] ]).
Qed.

Lemma selected_tag_with_id (soup frm : node) (form_id : string) :
  get_attr "id" (selected_tag soup frm) = Some form_id ->
  get_attr "id" frm = Some form_id /\
  selected_tag soup frm
  = extend frm (find_associated_elements soup form_id) frm /\
  selected_page soup frm
  = extend frm (find_associated_elements soup form_id) soup.
Proof.
  intro H.
  assert (E : get_attr "id" frm = Some form_id).
  { destruct (same_element_selected_tag soup frm) as [_ [_ Ha]].
    unfold get_attr in *. rewrite <- Ha. exact H. }
  unfold selected_tag, selected_page. rewrite E. auto.
Qed.

Lemma has_id_is_tag (frm : node) (form_id : string) :
  get_attr "id" frm = Some form_id ->
  exists i n a cs, frm = Tag i n a cs.
Proof.
  destruct frm as [x | i n a cs]; [discriminate | eauto].
Qed.

Lemma in_find_associated_elements (soup e : node) (kind form_id : string) :
  In kind elements_with_owner_form ->
  In e (descendants soup) ->
  tag_name e = Some kind ->
  get_attr "form" e = Some form_id ->
  In e (find_associated_elements soup form_id).
Proof.
  intros Hk He Hn Hf. unfold find_associated_elements.
  apply in_flat_map. exists kind. split; [exact Hk |].
  unfold find_all. apply filter_In. split; [exact He |].
  destruct e as [x | i n a cs]; [discriminate Hn |].
  simpl in Hn. inversion Hn; subst. simpl.
  rewrite String.eqb_refl. simpl.
  unfold get_attr in Hf. simpl in Hf. unfold get_attr. simpl.
  rewrite Hf. simpl. rewrite String.eqb_refl. reflexivity.
Qed.

(** The contents of the receiving tag after [extend]: what stayed of its
    own, then the moved tags. *)
Lemma contents_extend (i : nat) (n : string) (a : list (string * string))
      (cs tags : list node) :
  tag_contents (extend (Tag i n a cs) tags (Tag i n a cs))
  = flat_map
      (fun c =>
         if kept (uids tags) c
         then [graft i (map (prune (uids tags)) tags) (uids tags) c]
         else [])
      cs
    ++ map (prune (uids tags)) tags.
Proof. simpl. rewrite Nat.eqb_refl. reflexivity. Qed.

(** C5.  When [select_form] returns a form whose tag has the [id]
    [form_id], every [input], [button], [fieldset], [object], [output],
    [select] or [textarea] of the page whose [form] attribute is [form_id]
    is among the contents of the form's tag, next to the contents the tag
    had of its own. *)
Theorem select_form_includes_associated (B : Backend)
        (s s' : World * StatefulBrowser) (soup : node) (selector : pyval)
        (nr : Z) (F : Form) (form_id : string) :
  st_page (state (snd s)) = Some soup ->
  select_form B selector nr s = (s', Return F) ->
  get_attr "id" (form_tag F) = Some form_id ->
  exists frm,
    (selector = PTag frm \/
     exists sel, selector_string selector = Some sel /\
                 In frm (all_matches B soup sel)) /\
    same_element (form_tag F) frm /\
    (forall e kind,
        In kind elements_with_owner_form ->
        In e (descendants soup) ->
        tag_name e = Some kind ->
        get_attr "form" e = Some form_id ->
        exists e', In e' (tag_contents (form_tag F)) /\ same_element e' e) /\
    (forall c,
        In c (tag_contents frm) ->
        kept (uids (find_associated_elements soup form_id)) c = true ->
        exists c', In c' (tag_contents (form_tag F)) /\ same_element c' c).
Proof.
  intros Hpage Hrun Hid.
  destruct (select_form_returns B s s' soup selector nr F Hpage Hrun)
    as [frm [_ [Heq Hfrm]]].
  unfold selected in Heq. inversion Heq as [[Hs' HF]]. clear Heq.
  rewrite HF in Hid. simpl in Hid.
  destruct (selected_tag_with_id soup frm form_id Hid) as [Hidf [Htag _]].
  destruct (has_id_is_tag frm form_id Hidf) as [i [n [a [cs ->]]]].
  exists (Tag i n a cs). split; [exact Hfrm |].
  simpl. split; [apply same_element_selected_tag |].
  rewrite Htag, contents_extend. split.
  - intros e kind Hk He Hn Hf.
    exists (prune (uids (find_associated_elements soup form_id)) e).
    split; [| apply same_element_prune].
    apply in_or_app. right. apply in_map.
    exact (in_find_associated_elements soup e kind form_id Hk He Hn Hf).
  - intros c Hc Hkept.
    exists (graft i
              (map (prune (uids (find_associated_elements soup form_id)))
                   (find_associated_elements soup form_id))
              (uids (find_associated_elements soup form_id)) c).
    split; [| apply same_element_graft].
    apply in_or_app. left. apply in_flat_map. exists c.
    split; [exact Hc |]. rewrite Hkept. left. reflexivity.
Qed.

(** The form of the demonstration page, selected, holds the detached
    [input] that names it. *)
Lemma select_form_includes_associated_witness :
  exists e',
    In e' (tag_contents
             (form_tag (mkForm (selected_tag Demo.home Demo.the_form)))) /\
    same_element e' Demo.detached_input.
Proof.
  destruct (select_form_includes_associated Demo.backend Demo.at_home _
              Demo.home (PStr "form") 0 _ "f" eq_refl eq_refl eq_refl)
    as [frm [_ [_ [H _]]]].
  apply (H Demo.detached_input "input").
  - simpl. auto.
  - simpl. tauto.
  - reflexivity.
  - reflexivity.
Defined.

(** ** The page after a selection *)

Lemma in_preorder_self (t : node) : In t (preorder t).
Proof. destruct t; left; reflexivity. Qed.

Lemma descendants_in_preorder (t x : node) :
  In x (descendants t) -> In x (preorder t).
Proof.
  destruct t as [y | i n a cs]; simpl; intro H.
  - contradiction.
  - right. exact H.
Qed.

Lemma child_is_descendant (i : nat) (n : string) (a : list (string * string))
      (cs : list node) (c : node) :
  In c cs -> In c (descendants (Tag i n a cs)).
Proof.
  intro H. unfold descendants. simpl. apply in_flat_map.
  exists c. split; [exact H | apply in_preorder_self].
Qed.

Lemma below_child_is_descendant (i : nat) (n : string)
      (a : list (string * string)) (cs : list node) (c x : node) :
  In c cs -> In x (descendants c) -> In x (descendants (Tag i n a cs)).
Proof.
  intros H Hx. unfold descendants at 1. simpl. apply in_flat_map.
  exists c. split; [exact H | apply descendants_in_preorder; exact Hx].
Qed.

Lemma graft_child (target : nat) (moved : list node) (gone : list nat)
      (i : nat) (n : string) (a : list (string * string)) (cs : list node)
      (c : node) :
  In c cs -> kept gone c = true ->
  In (graft target moved gone c)
     (tag_contents (graft target moved gone (Tag i n a cs))).
Proof.
  intros Hc Hk. simpl.
  assert (H : In (graft target moved gone c)
                 (flat_map
                    (fun c0 => if kept gone c0
                               then [graft target moved gone c0] else [])
                    cs)).
  { apply in_flat_map. exists c. split; [exact Hc |].
    rewrite Hk. left. reflexivity. }
  destruct (Nat.eqb i target); [apply in_or_app; left |]; exact H.
Qed.

(** A tag that stays where it is through [extend] is found in the new
    tree, as [extend] left it. *)
Lemma graft_stays (target : nat) (moved : list node) (gone : list nat)
      (frm t : node) :
  stays gone frm t ->
  In (graft target moved gone frm)
     (descendants (graft target moved gone t)).
Proof.
  induction 1 as [i n a cs Hin Hk | i n a cs c Hin Hk Hst IH].
  - pose proof (graft_child target moved gone i n a cs frm Hin Hk) as H.
    simpl in H |- *.
    apply (child_is_descendant i n a _ _ H).
  - pose proof (graft_child target moved gone i n a cs c Hin Hk) as H.
    simpl in H |- *.
    apply (below_child_is_descendant i n a _ _ _ H IH).
Qed.

Lemma links_on_page (B : Backend) (s : World * StatefulBrowser)
      (soup : node) :
  st_page (state (snd s)) = Some soup ->
  links B PNone PNone [] s
  = (s, Return (find_all soup "a" [("href", FPresent)])).
Proof.
  destruct s as [w [d v [p u f r] r404 cfg]]. simpl. intro H. subst p.
  reflexivity.
Qed.

Lemma find_all_anchors (soup : node) :
  find_all soup "a" [("href", FPresent)]
  = filter (fun t => name_is "a" t && has_attr "href" t) (descendants soup).
Proof.
  unfold find_all. apply filter_ext. intro t.
  unfold matches_all, has_attr. simpl.
  destruct (get_attr "href" t); simpl; rewrite ?andb_true_r; reflexivity.
Qed.

Lemma stays_descendant (gone : list nat) (frm t : node) :
  stays gone frm t -> In frm (descendants t).
Proof.
  induction 1 as [i n a cs Hin Hk | i n a cs c Hin Hk Hst IH].
  - apply child_is_descendant. exact Hin.
  - exact (below_child_is_descendant i n a cs c frm Hin IH).
Qed.

Lemma same_element_uid (a b : node) (i : nat) :
  same_element a b -> has_uid i b = true -> has_uid i a = true.
Proof.
  intros [Hu _] H. destruct a, b; simpl in *; try discriminate;
    inversion Hu; subst; exact H.
Qed.

Lemma select_form_later (B : Backend) (s : World * StatefulBrowser)
      (soup : node) (sel : string) (nr : Z) :
  st_page (state (snd s)) = Some soup ->
  (0 <= nr)%Z ->
  (snd (select_form B (PStr sel) nr s) = Raise LinkNotFoundError
   <-> (Z.of_nat (length (all_matches B soup sel)) < nr + 1)%Z) /\
  (forall s2 F2,
      select_form B (PStr sel) nr s = (s2, Return F2) ->
      exists frm2,
        nth_error (all_matches B soup sel) (Z.to_nat nr) = Some frm2 /\
        same_element (form_tag F2) frm2).
Proof.
  intros Hpage Hnr.
  pose proof (select_form_css B s soup nr sel Hpage Hnr) as H.
  destruct (nth_error (all_matches B soup sel) (Z.to_nat nr))
    as [frm |] eqn:E.
  - assert (Z.to_nat nr < length (all_matches B soup sel))
      by (apply nth_error_Some; congruence).
    rewrite H. split.
    + split; [| lia].
      intro H'. exfalso. exact (resolved_not_link_not_found _ _ _ H').
    + intros s2 F2 H2. exists frm. split; [reflexivity |].
      unfold resolved, refused, selected in H2.
      destruct (own_owner soup frm); [discriminate H2 |].
      inversion H2; subst. apply same_element_selected_tag.
  - apply nth_error_None in E. split.
    + split; [lia | auto].
    + intros s2 F2 H2. rewrite H2 in H. discriminate H.
Qed.

(** C10.  When [select_form] returns a form whose tag has the [id]
    [form_id], the contents of that tag are what stayed of its own
    contents and then, appended, every [input], [button], [fieldset],
    [object], [output], [select] or [textarea] of the page whose [form]
    attribute is [form_id].  The tag is in the page the state now holds
    (when none of the tags above it was moved), so the elements are its
    children in the page itself, and that page is not the page from before
    when one of the elements was not a child of the tag already.  [page],
    [links] and a later [select_form] read the page as it now is. *)
Theorem select_form_changes_the_page (B : Backend)
        (s s' : World * StatefulBrowser) (soup : node) (selector : pyval)
        (nr : Z) (F : Form) (form_id : string) :
  st_page (state (snd s)) = Some soup ->
  select_form B selector nr s = (s', Return F) ->
  get_attr "id" (form_tag F) = Some form_id ->
  let associated e :=
    In e (descendants soup) /\
    (exists kind, In kind elements_with_owner_form /\ tag_name e = Some kind) /\
    get_attr "form" e = Some form_id in
  exists frm page',
    (selector = PTag frm \/
     exists sel, selector_string selector = Some sel /\
                 In frm (all_matches B soup sel)) /\
    same_element (form_tag F) frm /\
    (exists own moved,
        tag_contents (form_tag F) = own ++ moved /\
        (forall c', In c' own ->
                    exists c, In c (tag_contents frm) /\ same_element c' c) /\
        (forall e, associated e ->
                   exists e', In e' moved /\ same_element e' e)) /\
    st_page (state (snd s')) = Some page' /\
    page' = extend frm (find_associated_elements soup form_id) soup /\
    (stays (uids (find_associated_elements soup form_id)) frm soup ->
     In (form_tag F) (descendants page') /\
     (NoDup (uids (descendants soup)) ->
      forall e,
        associated e ->
        (forall c, In c (tag_contents frm) -> tag_uid c <> tag_uid e) ->
        page' <> soup)) /\
    page s' = (s', Return (Some page')) /\
    links B PNone PNone [] s'
    = (s', Return (filter (fun t => name_is "a" t && has_attr "href" t)
                          (descendants page'))) /\
    (forall sel2 nr2,
        (0 <= nr2)%Z ->
        (snd (select_form B (PStr sel2) nr2 s') = Raise LinkNotFoundError
         <-> (Z.of_nat (length (all_matches B page' sel2)) < nr2 + 1)%Z) /\
        (forall s2 F2,
            select_form B (PStr sel2) nr2 s' = (s2, Return F2) ->
            exists frm2,
              nth_error (all_matches B page' sel2) (Z.to_nat nr2)
              = Some frm2 /\
              same_element (form_tag F2) frm2)).
Proof.
  intros Hpage Hrun Hid associated.
  destruct (select_form_returns B s s' soup selector nr F Hpage Hrun)
    as [frm [_ [Heq Hfrm]]].
  unfold selected in Heq. inversion Heq as [[Hs' HF]].
  rewrite HF in Hid. simpl in Hid.
  destruct (selected_tag_with_id soup frm form_id Hid) as [Hidf [Htag Hpg]].
  destruct (has_id_is_tag frm form_id Hidf) as [i [n [a [cs Hf]]]].
  set (new_elements := find_associated_elements soup form_id) in *.
  exists frm, (extend frm new_elements soup).
  split; [exact Hfrm |].
  simpl.
  assert (Hsame : same_element (selected_tag soup frm) frm)
    by apply same_element_selected_tag.
  split; [exact Hsame |].
  assert (Hcontents :
            exists own moved,
              tag_contents (selected_tag soup frm) = own ++ moved /\
              (forall c', In c' own ->
                          exists c, In c (tag_contents frm) /\
                                    same_element c' c) /\
              (forall e, associated e ->
                         exists e', In e' moved /\ same_element e' e)).
  { rewrite Htag. subst frm. rewrite contents_extend.
    eexists. eexists. split; [reflexivity |]. split.
    - intros c' Hc'. apply in_flat_map in Hc'. destruct Hc' as [c [Hc Hin]].
      exists c. split; [exact Hc |].
      destruct (kept (uids new_elements) c); [| contradiction].
      destruct Hin as [<- | []]. apply same_element_graft.
    - intros e [He [[kind [Hk Hn]] Hform]].
      exists (prune (uids new_elements) e).
      split; [| apply same_element_prune].
      apply in_map.
      exact (in_find_associated_elements soup e kind form_id Hk He Hn Hform). }
  split; [exact Hcontents |].
  split; [rewrite Hpg; reflexivity |].
  split; [reflexivity |].
  split.
  { intro Hst.
    assert (Hin : In (selected_tag soup frm)
                     (descendants (extend frm new_elements soup))).
    { rewrite Htag. subst frm. unfold extend.
      apply graft_stays. exact Hst. }
    split; [exact Hin |].
    intros Hnd e He Hnotchild Hsamepage.
    rewrite Hsamepage in Hin.
    assert (Hi : has_uid i frm = true)
      by (subst frm; simpl; apply Nat.eqb_refl).
    assert (Hequal : selected_tag soup frm = frm).
    { apply (unique_by_uid i (descendants soup)); auto.
      - exact (stays_descendant _ _ _ Hst).
      - exact (same_element_uid _ _ i Hsame Hi). }
    destruct Hcontents as [own [moved [Hc [_ Hmoved]]]].
    destruct (Hmoved e He) as [e' [Hin' [Huid _]]].
    apply (Hnotchild e'); [| exact Huid].
    rewrite <- Hequal, Hc. apply in_or_app. right. exact Hin'. }
  split.
  { rewrite Hpg. reflexivity. }
  split.
  { rewrite <- find_all_anchors. apply links_on_page. simpl.
    rewrite Hpg. reflexivity. }
  intros sel2 nr2 Hnr2. apply select_form_later; [| exact Hnr2].
  simpl. rewrite Hpg. reflexivity.
Qed.

Lemma home_tags_are_distinct : NoDup (uids (descendants Demo.home)).
Proof.
  simpl. repeat (constructor; [simpl; intuition discriminate |]).
  constructor.
Qed.

(** On the demonstration page: after the selection the form is a tag of
    the page of the state, the detached [input] that names it is among its
    children, and the page is not the one from before. *)
Lemma select_form_changes_the_page_witness :
  exists page' t e',
    st_page (state (snd (fst (select_form Demo.backend (PStr "form") 0
                                          Demo.at_home))))
    = Some page' /\
    In t (descendants page') /\
    same_element t Demo.the_form /\
    In e' (tag_contents t) /\
    same_element e' Demo.detached_input /\
    page' <> Demo.home.
Proof.
  destruct (select_form_changes_the_page Demo.backend Demo.at_home _
              Demo.home (PStr "form") 0 _ "f" eq_refl eq_refl eq_refl)
    as [frm [page' [Hfrm [Hsame [[own [moved [Hc [_ Hmoved]]]]
                                   [Hpg [_ [Hin _]]]]]]]].
  assert (E : frm = Demo.the_form).
  { destruct Hfrm as [Hfrm | [sel [Hsel Hfrm]]]; [discriminate Hfrm |].
    inversion Hsel; subst sel. simpl in Hfrm.
    destruct Hfrm as [Hfrm | []]. symmetry. exact Hfrm. }
  subst frm.
  assert (Ha : In Demo.detached_input (descendants Demo.home) /\
               (exists kind, In kind elements_with_owner_form /\
                             tag_name Demo.detached_input = Some kind) /\
               get_attr "form" Demo.detached_input = Some "f").
  { split; [simpl; tauto |]. split; [| reflexivity].
    exists "input". split; [simpl; tauto | reflexivity]. }
  destruct (Hmoved _ Ha) as [e' [He' Hsame']].
  destruct Hin as [Hin Hchanged].
  { apply stays_child; [simpl; tauto | reflexivity]. }
  exists page'. eexists. exists e'.
  split; [exact Hpg |]. split; [exact Hin |]. split; [exact Hsame |].
  split; [rewrite Hc; apply in_or_app; right; exact He' |].
  split; [exact Hsame' |].
  apply (Hchanged home_tags_are_distinct _ Ha).
  intros c Hcin. simpl in Hcin.
  destruct Hcin as [<- | [<- | []]]; discriminate.
Defined.

(** The links of the demonstration page, before and after the form is
    selected: the link inside the moved [fieldset] now comes after the
    link of the form. *)
Example links_see_the_moved_elements :
  option_map (map href)
    (match snd (links Demo.backend PNone PNone [] Demo.at_home) with
     | Return l => Some l
     | Raise _ => None
     end) = Some ["/a1"; "/b1"; "/a2"] /\
  option_map (map href)
    (match snd (links Demo.backend PNone PNone []
                  (fst (select_form Demo.backend (PStr "form") 0
                                    Demo.at_home))) with
     | Return l => Some l
     | Raise _ => None
     end) = Some ["/b1"; "/a1"; "/a2"].
Proof. split; reflexivity. Qed.

(** ** Links *)

Lemma filter_filter {A} (f g : A -> bool) (l : list A) :
  filter g (filter f l) = filter (fun x => f x && g x) l.
Proof.
  induction l as [| x l IH]; simpl; [reflexivity |].
  destruct (f x); simpl; [destruct (g x) |]; rewrite IH; reflexivity.
Qed.

(** C6.  On a loaded page [links(url_regex, link_text)] returns the [a]
    tags of the page that have an [href], in document order, keeping a tag
    only if [re.search] finds [url_regex] in its [href] (when a pattern is
    given) and its text is [link_text] (when a text is given). *)
Theorem links_are_the_matching_anchors (B : Backend)
        (s : World * StatefulBrowser) (soup : node)
        (url_regex link_text : option string) :
  st_page (state (snd s)) = Some soup ->
  links B (optional url_regex) (optional link_text) [] s
  = (s,
     Return
       (filter
          (fun a =>
             match url_regex with
             | Some re => re_search B re (href a)
             | None => true
             end
             && match link_text with
                | Some t => String.eqb (text a) t
                | None => true
                end)
          (filter (fun t => name_is "a" t && has_attr "href" t)
                  (descendants soup)))).
Proof.
  destruct s as [w [d v [p u f r] r404 cfg]]. simpl. intro H. subst p.
  rewrite <- find_all_anchors.
  unfold links, bind, page_object, page, self, ret; simpl.
  destruct url_regex as [re |], link_text as [t |]; simpl;
    unfold ret; do 2 f_equal.
  - apply filter_filter.
  - apply filter_ext. intro a. rewrite andb_true_r. reflexivity.
  - induction (find_all soup "a" [("href", FPresent)]) as [| a l IH];
      simpl; [reflexivity | f_equal; exact IH].
Qed.

(** [links(url_regex="^/a")] on the demonstration page, whose links are
    [/a1], [/b1] and [/a2]. *)
Lemma links_are_the_matching_anchors_witness :
  option_map (map href)
    (match snd (links Demo.backend (PStr "^/a") PNone [] Demo.at_home) with
     | Return l => Some l
     | Raise _ => None
     end) = Some ["/a1"; "/a2"].
Proof.
  pose proof (links_are_the_matching_anchors Demo.backend Demo.at_home
                Demo.home (Some "^/a") None eq_refl) as H.
  simpl optional in H. rewrite H. reflexivity.
Defined.

(** A [NavigableString] taken from the page and passed as [link_text] or
    as [url_regex] is a string: the link with that text, or with a
    matching [href], is found; an empty one is false like the empty
    string. *)
Example navigable_string_is_a_string :
  option_map (map href)
    (match snd (links Demo.backend PNone (PTag (Text "first")) []
                      Demo.at_home) with
     | Return l => Some l
     | Raise _ => None
     end) = Some ["/a1"] /\
  links Demo.backend (PTag (Text "^/a")) PNone [] Demo.at_home
  = links Demo.backend (PStr "^/a") PNone [] Demo.at_home /\
  truthy (PTag (Text "")) = false.
Proof. repeat split. Qed.

(** ** The [Referer] header *)

Module CaseInsensitiveDictFacts.
Import CaseInsensitiveDict.

Lemma getitem_setitem (k key value : string) (store : t) :
  getitem k (setitem key value store)
  = if String.eqb (lower key) (lower k) then Some value
    else getitem k store.
Proof.
  induction store as [| [k0 kv0] rest IH]; simpl.
  - reflexivity.
  - destruct (String.eqb_spec k0 (lower key)) as [E | E]; simpl.
    + subst k0. destruct (String.eqb (lower key) (lower k)); reflexivity.
    + rewrite IH.
      destruct (String.eqb_spec k0 (lower k)) as [E1 | E1];
        destruct (String.eqb_spec (lower key) (lower k)) as [E2 | E2];
        try reflexivity.
      exfalso. apply E. congruence.
Qed.

Lemma contains_getitem (k : string) (store : t) :
  contains k store
  = match getitem k store with Some _ => true | None => false end.
Proof.
  induction store as [| [k0 kv0] rest IH]; simpl; [reflexivity |].
  destruct (String.eqb k0 (lower k)); simpl; [reflexivity | exact IH].
Qed.

Lemma setitem_new (key value : string) (store : t) :
  contains key store = false ->
  setitem key value store = store ++ [(lower key, (key, value))].
Proof.
  induction store as [| [k0 kv0] rest IH]; simpl; intro H.
  - reflexivity.
  - apply orb_false_iff in H. destruct H as [H1 H2].
    rewrite H1, (IH H2). reflexivity.
Qed.

Lemma getitem_fold (k : string) (data : dict) (store : t) :
  getitem k (fold_left (fun st kv => setitem (fst kv) (snd kv) st)
                       data store)
  = fold_left
      (fun acc kv =>
         if String.eqb (lower (fst kv)) (lower k) then Some (snd kv)
         else acc)
      data (getitem k store).
Proof.
  revert store. induction data as [| [key v] data IH]; intro store; simpl.
  - reflexivity.
  - rewrite IH, getitem_setitem. reflexivity.
Qed.

(** Reading the items of a dictionary back gives the header just set. *)
Lemma header_after_setitem (key value : string) (store : t) :
  contains key store = false ->
  header key (items (setitem key value store)) = Some value.
Proof.
  intro H. unfold header, make.
  rewrite getitem_fold, (setitem_new key value store H).
  unfold items. rewrite map_app, fold_left_app. simpl.
  rewrite String.eqb_refl. reflexivity.
Qed.

End CaseInsensitiveDictFacts.

Lemma merge_referer_run (kwargs : requests_kwargs)
      (s : World * StatefulBrowser) :
  _merge_referer kwargs s = (s, Return (merged (st_url (state (snd s))) kwargs)).
Proof.
  unfold _merge_referer, merged, bind, url, self, ret; simpl.
  destruct (st_url (state (snd s))); [| reflexivity].
  destruct (negb _); reflexivity.
Qed.

Lemma referer_of_caller (kwargs : requests_kwargs) :
  referer_of kwargs
  = CaseInsensitiveDict.getitem "Referer"
      (CaseInsensitiveDict.make
         (match kw_headers kwargs with Some d => d | None => [] end)).
Proof. unfold referer_of, header. destruct (kw_headers kwargs); reflexivity. Qed.

Lemma merged_adds (r : string) (kwargs : requests_kwargs) :
  referer_of kwargs = None ->
  referer_of (merged (Some r) kwargs) = Some r /\
  kw_other (merged (Some r) kwargs) = kw_other kwargs.
Proof.
  intro H. rewrite referer_of_caller in H. unfold merged.
  rewrite CaseInsensitiveDictFacts.contains_getitem, H. simpl.
  unfold referer_of. simpl. split; [| reflexivity].
  apply CaseInsensitiveDictFacts.header_after_setitem.
  rewrite CaseInsensitiveDictFacts.contains_getitem, H. reflexivity.
Qed.

Lemma merged_keeps (referer : option string) (kwargs : requests_kwargs)
      (v : string) :
  referer_of kwargs = Some v -> merged referer kwargs = kwargs.
Proof.
  intro H. rewrite referer_of_caller in H. unfold merged.
  destruct referer; [| reflexivity].
  rewrite CaseInsensitiveDictFacts.contains_getitem, H. reflexivity.
Qed.

Lemma sends_with_refl (P : requests_kwargs -> Prop) (l : list event) :
  sends_with P l l.
Proof. exists []. rewrite app_nil_r. auto. Qed.

Lemma sends_with_trans (P : requests_kwargs -> Prop) (a b c : list event) :
  sends_with P a b -> sends_with P b c -> sends_with P a c.
Proof.
  intros [e1 [H1 F1]] [e2 [H2 F2]]. exists (e1 ++ e2). split.
  - rewrite H2, H1, app_assoc. reflexivity.
  - apply Forall_app. auto.
Qed.

Lemma sends_with_one (P : requests_kwargs -> Prop) (l : list event)
      (e : event) :
  (forall k, outgoing e = Some k -> P k) -> sends_with P l (l ++ [e]).
Proof. intro H. exists [e]. auto. Qed.

Lemma sends_with_quiet {A} (P : requests_kwargs -> Prop) (m : M A)
      (s : World * StatefulBrowser) :
  quiet m -> sends_with P (log (fst s)) (log (fst (fst (m s)))).
Proof.
  intro H. destruct (H s) as [_ [evs [Hl Hq]]]. exists evs.
  split; [exact Hl |].
  eapply Forall_impl; [| exact Hq]. simpl. intros e He k Hk. congruence.
Qed.

Lemma sends_bind_quiet {A C} (P : requests_kwargs -> Prop) (m : M A)
      (k : A -> M C) (s : World * StatefulBrowser) :
  quiet m ->
  (forall a s1, snd s1 = snd s ->
                sends_with P (log (fst s1)) (log (fst (fst (k a s1))))) ->
  sends_with P (log (fst s)) (log (fst (fst (bind m k s)))).
Proof.
  intros Hm Hk. pose proof (sends_with_quiet P m s Hm) as Hs.
  destruct (Hm s) as [Hb _]. unfold bind.
  destruct (m s) as [s1 [a | e]]; simpl in *.
  - eapply sends_with_trans; [exact Hs | apply Hk; exact Hb].
  - exact Hs.
Qed.

Section Referer.

Variable B : Backend.
Variable P : requests_kwargs -> Prop.

Lemma open_relative_sends (u : string) (kwargs : requests_kwargs)
      (s : World * StatefulBrowser) :
  P kwargs ->
  sends_with P (log (fst s))
             (log (fst (fst (open_relative B u kwargs s)))).
Proof.
  intro HP. destruct s as [w b].
  assert (Hget : forall target w1,
             sends_with P (log w1)
               (log (fst (fst (bind (get B target kwargs)
                                    (fun resp =>
                                       bind (set_state (state_of_response resp))
                                            (fun _ => ret resp))
                                    (w1, b)))))).
  { intros target w1.
    unfold get, bind, the_log, emit, lift_exn, set_state, ret, raise; simpl.
    destruct (Browser_get B (log w1) target kwargs); simpl;
      apply sends_with_one; simpl; intros k Hk; inversion Hk; subst;
      exact HP. }
  unfold open_relative, absolute_url, open.
  unfold bind at 1. unfold bind at 1. unfold url, bind at 1. simpl.
  unfold bind at 1. simpl.
  destruct (verbose b =? 1)%Z.
  - unfold bind at 1. simpl.
    eapply sends_with_trans; [| apply Hget]. simpl.
    apply sends_with_one. simpl. discriminate.
  - unfold when. destruct (verbose b >=? 2)%Z.
    + unfold bind at 1. simpl.
      eapply sends_with_trans; [| apply Hget]. simpl.
      apply sends_with_one. simpl. discriminate.
    + unfold bind at 1. simpl. apply Hget.
Qed.

Lemma follow_link_sends (link : pyval) (bs4_kw : option bs4_kwargs)
      (requests_kw : option requests_kwargs) (kwargs : bs4_kwargs)
      (s : World * StatefulBrowser) :
  P (merged (st_url (state (snd s)))
            (match requests_kw with Some k => k | None => no_kwargs end)) ->
  sends_with P (log (fst s))
    (log (fst (fst (follow_link B link bs4_kw requests_kw kwargs s)))).
Proof.
  intro HP. unfold follow_link.
  apply sends_bind_quiet; [auto with quiet |]. intros d s1 H1.
  apply sends_bind_quiet; [auto with quiet |]. intros [] s2 H2.
  apply sends_bind_quiet; [auto with quiet |]. intros l s3 H3.
  unfold bind. rewrite merge_referer_run.
  destruct (get_attr "href" l).
  - apply open_relative_sends. rewrite H3, H2, H1. exact HP.
  - apply sends_with_refl.
Qed.

Lemma download_link_sends (link : pyval) (file : option string)
      (bs4_kw : option bs4_kwargs) (requests_kw : option requests_kwargs)
      (kwargs : bs4_kwargs) (s : World * StatefulBrowser) :
  P (merged (st_url (state (snd s)))
            (match requests_kw with Some k => k | None => no_kwargs end)) ->
  sends_with P (log (fst s))
    (log (fst (fst (download_link B link file bs4_kw requests_kw kwargs
                                  s)))).
Proof.
  intro HP. unfold download_link.
  apply sends_bind_quiet; [auto with quiet |]. intros d s1 H1.
  apply sends_bind_quiet; [auto with quiet |]. intros [] s2 H2.
  apply sends_bind_quiet; [auto with quiet |]. intros l s3 H3.
  destruct (get_attr "href" l); [| apply sends_with_refl].
  apply sends_bind_quiet; [auto with quiet |]. intros target s4 H4.
  unfold bind at 1. rewrite merge_referer_run.
  rewrite H4, H3, H2, H1.
  destruct s4 as [w4 b4].
  unfold bind, the_log, emit, lift_request, self, ret, raise; simpl.
  destruct (session_get B (log w4) target _) as [c | response]; simpl.
  - apply sends_with_one. simpl. intros k Hk. inversion Hk; subst. exact HP.
  - destruct (raise_on_404 b4 && (resp_status_code response =? 404)%Z);
      simpl.
    + apply sends_with_one. simpl. intros k Hk. inversion Hk; subst.
      exact HP.
    + destruct file as [path |]; simpl.
      * eapply sends_with_trans;
          [| destruct (file_write B _ path (resp_content response)); simpl;
             apply sends_with_one; simpl; discriminate ].
        apply sends_with_one. simpl. intros k Hk. inversion Hk; subst.
        exact HP.
      * apply sends_with_one. simpl. intros k Hk. inversion Hk; subst.
        exact HP.
Qed.

Lemma submit_selected_sends (btnName : pyval) (update_state : bool)
      (kwargs : requests_kwargs) (s : World * StatefulBrowser) :
  P (merged (st_url (state (snd s))) kwargs) ->
  sends_with P (log (fst s))
    (log (fst (fst (submit_selected B btnName update_state kwargs s)))).
Proof.
  intro HP. destruct s as [w [d v [p u f r] r404 cfg]]. simpl in HP.
  unfold submit_selected, form.
  unfold bind at 1. simpl.
  destruct f as [f |]; simpl; [| apply sends_with_refl].
  unfold bind at 1. simpl. unfold bind at 1. simpl.
  destruct (choose_submit B (log w) f btnName); simpl.
  - apply sends_with_one. simpl. discriminate.
  - unfold bind at 1. rewrite merge_referer_run. simpl.
    unfold bind, self, the_log, emit, lift_exn, when, set_state, ret, raise;
      simpl.
    eapply sends_with_trans;
      [ apply (sends_with_one P _ (ChooseSubmit f btnName)); simpl;
        discriminate |].
    destruct (Browser_submit B _ (Some f) u _); simpl;
      [| destruct update_state; simpl];
      apply sends_with_one; simpl; intros k Hk; inversion Hk; subst;
      exact HP.
Qed.

End Referer.

(** C7, as amended.  [submit_selected], [follow_link] and [download_link]
    send their requests with the keyword arguments [_merge_referer] makes of
    the caller's.  When the state has a URL, these carry a [Referer] equal
    to it exactly when the caller gave no [Referer] under any
    capitalisation, or gave one that already has that value; without a URL
    in the state, or with a [Referer] from the caller, they are the
    caller's, unchanged. *)
Theorem referer_of_outgoing_requests (B : Backend)
        (s : World * StatefulBrowser) :
  let u := st_url (state (snd s)) in
  (forall kwargs, _merge_referer kwargs s = (s, Return (merged u kwargs))) /\
  (forall kwargs r,
      u = Some r ->
      (referer_of (merged u kwargs) = Some r
       <-> referer_of kwargs = None \/ referer_of kwargs = Some r)) /\
  (forall kwargs, u = None -> merged u kwargs = kwargs) /\
  (forall kwargs v, referer_of kwargs = Some v -> merged u kwargs = kwargs) /\
  (forall btnName update_state kwargs,
      sends_with (fun k => k = merged u kwargs) (log (fst s))
        (log (fst (fst (submit_selected B btnName update_state kwargs s))))) /\
  (forall link bs4_kw requests_kw kwargs,
      sends_with
        (fun k =>
           k = merged u (match requests_kw with
                         | Some k => k
                         | None => no_kwargs
                         end))
        (log (fst s))
        (log (fst (fst (follow_link B link bs4_kw requests_kw kwargs s))))) /\
  (forall link file bs4_kw requests_kw kwargs,
      sends_with
        (fun k =>
           k = merged u (match requests_kw with
                         | Some k => k
                         | None => no_kwargs
                         end))
        (log (fst s))
        (log (fst (fst (download_link B link file bs4_kw requests_kw kwargs
                                      s))))).
Proof.
  intro u. repeat apply conj.
  - intro kwargs. apply merge_referer_run.
  - intros kwargs r Hu. rewrite Hu.
    destruct (referer_of kwargs) as [v |] eqn:E.
    + rewrite (merged_keeps (Some r) kwargs v E), E. split.
      * intro H. right. exact H.
      * intros [H | H]; [discriminate H | exact H].
    + destruct (merged_adds r kwargs E) as [H _]. rewrite H. split; auto.
  - intros kwargs Hu. rewrite Hu. reflexivity.
  - intros kwargs v. apply merged_keeps.
  - intros. apply submit_selected_sends. reflexivity.
  - intros. apply follow_link_sends. reflexivity.
  - intros. apply download_link_sends. reflexivity.
Qed.

(** A caller of [follow_link] who passes the URL of the page as [referer]
    itself: the request carries a [Referer] equal to the URL of the state
    although the caller supplied the header. *)
Lemma referer_equal_to_url_from_caller :
  let kwargs := mkRequestsKwargs (Some [("referer", "/home")]) [] in
  let out := follow_link Demo.backend (PStr "^/b") None (Some kwargs)
                         empty_bs4_kwargs Demo.at_home in
  log (fst (fst out)) = log (fst Demo.at_home) ++ [BrowserGet "/b1" kwargs] /\
  ~ referer_rule (st_url (state (snd Demo.at_home))) kwargs kwargs.
Proof.
  split; [reflexivity |].
  unfold referer_rule. intros [H _].
  destruct H as [_ H]; [| discriminate H].
  exists "/home". split; reflexivity.
Qed.

(** ** Conflicting arguments *)

(** C9, as amended.  When [link] is not a tag with an [href] and is true as
    a Python value (so not [None] and not the empty pattern), and
    [url_regex] is among the keywords, [follow_link] and [download_link]
    raise the conflicting-argument error with no event logged and the
    browser as it was. *)
Theorem conflicting_link_and_url_regex (B : Backend)
        (s : World * StatefulBrowser) (link : pyval)
        (file : option string) (bs4_kw : option bs4_kwargs)
        (requests_kw : option requests_kwargs) (kwargs : bs4_kwargs) :
  is_link link = None ->
  truthy link = true ->
  (kw_url_regex kwargs <> None \/
   exists d, bs4_kw = Some d /\ kw_url_regex d <> None) ->
  (snd (follow_link B link bs4_kw requests_kw kwargs s)
   = Raise conflicting_argument /\
   log (fst (fst (follow_link B link bs4_kw requests_kw kwargs s)))
   = log (fst s) /\
   snd (fst (follow_link B link bs4_kw requests_kw kwargs s)) = snd s) /\
  (snd (download_link B link file bs4_kw requests_kw kwargs s)
   = Raise conflicting_argument /\
   log (fst (fst (download_link B link file bs4_kw requests_kw kwargs s)))
   = log (fst s) /\
   snd (fst (download_link B link file bs4_kw requests_kw kwargs s)) = snd s).
Proof.
  intros Hlink Htrue Hkey.
  assert (Hup : forall d0,
             (kw_url_regex kwargs <> None \/ 
              (bs4_kw = Some d0 /\ kw_url_regex d0 <> None)) ->
             exists v, or_else (kw_url_regex kwargs) (kw_url_regex d0) = Some v).
  { intros d0 H. unfold or_else.
    destruct (kw_url_regex kwargs) as [v |]; [eauto |].
    destruct H as [H | [_ H]]; [contradiction H; reflexivity |].
    destruct (kw_url_regex d0) as [v |]; [eauto | contradiction H; reflexivity]. }
  destruct s as [w b].
  split.
  - unfold follow_link.
    destruct bs4_kw as [d |].
    + destruct (Hup d) as [v Hv].
      { destruct Hkey as [H | [d' [Hd H]]]; [left; exact H |].
        inversion Hd; subst. right. auto. }
      unfold bind, lookup, assign, _find_link_internal; simpl.
      rewrite Hlink, Htrue, Hv. simpl. auto.
    + destruct (Hup (follow_link_default w)) as [v Hv].
      { destruct Hkey as [H | [d' [Hd H]]]; [left; exact H | discriminate Hd]. }
      unfold bind, lookup, assign, _find_link_internal; simpl.
      rewrite Hlink, Htrue, Hv. simpl. auto.
  - unfold download_link.
    destruct bs4_kw as [d |].
    + destruct (Hup d) as [v Hv].
      { destruct Hkey as [H | [d' [Hd H]]]; [left; exact H |].
        inversion Hd; subst. right. auto. }
      unfold bind, lookup, assign, _find_link_internal; simpl.
      rewrite Hlink, Htrue, Hv. simpl. auto.
    + destruct (Hup (download_link_default w)) as [v Hv].
      { destruct Hkey as [H | [d' [Hd H]]]; [left; exact H | discriminate Hd]. }
      unfold bind, lookup, assign, _find_link_internal; simpl.
      rewrite Hlink, Htrue, Hv. simpl. auto.
Qed.

(** [follow_link("^/b", url_regex="^/a")] on the demonstration page. *)
Lemma conflicting_link_and_url_regex_witness :
  snd (follow_link Demo.backend (PStr "^/b") None None
                   (mkBs4Kwargs (Some (PStr "^/a")) None []) Demo.at_home)
  = Raise conflicting_argument.
Proof.
  apply (conflicting_link_and_url_regex Demo.backend Demo.at_home
           (PStr "^/b") None None None
           (mkBs4Kwargs (Some (PStr "^/a")) None []) eq_refl eq_refl).
  left. discriminate.
Defined.

(** The empty pattern is a pattern and not a link, and [url_regex] is
    given besides: [follow_link] raises nothing, and opens the first link
    that [url_regex] finds. *)
Lemma empty_pattern_does_not_conflict :
  let out := follow_link Demo.backend (PStr "") None None
                         (mkBs4Kwargs (Some (PStr "^/a")) None [])
                         Demo.at_home in
  is_link (PStr "") = None /\
  (exists resp, snd out = Return resp /\ resp_url resp = "/a1") /\
  snd out <> Raise conflicting_argument /\
  log (fst (fst out))
  = log (fst Demo.at_home)
    ++ [BrowserGet "/a1" (mkRequestsKwargs (Some [("Referer", "/home")]) [])].
Proof.
  split; [reflexivity |]. split; [| split].
  - eexists. split; reflexivity.
  - discriminate.
  - reflexivity.
Qed.

(** ** Runs on the demonstration server *)

(** On the demonstration page, where one of the associated elements lies
    inside another, moving the tags one at a time gives the tree that
    [extend] gives. *)
Example extend_is_the_loop :
  let tags := find_associated_elements Demo.home "f" in
  uids tags = [9; 6; 1] /\
  extend_loop Demo.the_form tags Demo.home = extend Demo.the_form tags Demo.home /\
  find_uid 3 (extend Demo.the_form tags Demo.home)
  = Some (extend Demo.the_form tags Demo.the_form) /\
  map tag_uid (tag_contents (extend Demo.the_form tags Demo.the_form))
  = [Some 4; Some 5; Some 9; Some 6; Some 1].
Proof. repeat split. Qed.

(** A form is selected and submitted with [update_state=False]: the
    response is another page, and the state still holds the page, the URL
    and the form it held. *)
Example submit_without_update_run :
  let s := fst (select_form Demo.backend (PStr "form") 0 Demo.at_home) in
  let out := submit_selected Demo.backend PNone false no_kwargs s in
  (exists resp, snd out = Return resp /\
                resp_soup resp = Some Demo.result_page /\
                resp_soup resp <> st_page (state (snd s))) /\
  state (snd (fst out)) = state (snd s) /\
  st_url (state (snd (fst out))) = Some "/home".
Proof.
  split; [| split; reflexivity].
  eexists. split; [reflexivity |]. split; [reflexivity | discriminate].
Qed.

(** The same submission with [update_state=True] replaces the state. *)
Example submit_with_update_run :
  let s := fst (select_form Demo.backend (PStr "form") 0 Demo.at_home) in
  let out := submit_selected Demo.backend PNone true no_kwargs s in
  st_page (state (snd (fst out))) = Some Demo.result_page /\
  st_url (state (snd (fst out))) = Some "/post" /\
  st_form (state (snd (fst out))) = None.
Proof. repeat split. Qed.

(** [download_link] on a missing page with [raise_on_404] set, on a link
    that is not there, and on a link that is: the state is the one of
    [/home] each time; the file is written in the last case only. *)
Example download_link_runs :
  let strict :=
    (fst Demo.at_home,
     mkStatefulBrowser false 0 (state (snd Demo.at_home)) true "lxml") in
  let missing :=
    download_link Demo.backend
      (PTag (Tag 9 "a" [("href", "/missing")] [])) (Some "out.bin") None None
      empty_bs4_kwargs strict in
  let unresolved :=
    download_link Demo.backend (PStr "^/zzz") (Some "out.bin") None None
                  empty_bs4_kwargs Demo.at_home in
  let fetched :=
    download_link Demo.backend (PStr "^/a2") (Some "out.bin") None None
                  empty_bs4_kwargs Demo.at_home in
  (snd missing = Raise LinkNotFoundError /\ snd (fst missing) = snd strict) /\
  (snd unresolved = Raise LinkNotFoundError /\
   snd (fst unresolved) = snd Demo.at_home) /\
  (snd (fst fetched) = snd Demo.at_home /\
   In (FileWrite "out.bin" "done") (log (fst (fst fetched)))).
Proof.
  repeat split; simpl; tauto.
Qed.

(** The default [bs4_kwargs] dictionary of [follow_link] is one object:
    the pattern of a first call stays in it as [url_regex], and a second
    call with a pattern then raises the conflicting-argument error although
    its caller passed no [url_regex]. *)
Example follow_link_default_is_shared :
  let first := follow_link Demo.backend (PStr "^/nowhere") None None
                           empty_bs4_kwargs Demo.at_home in
  let second := follow_link Demo.backend (PStr "^/b") None None
                            empty_bs4_kwargs (fst first) in
  snd first = Raise LinkNotFoundError /\
  kw_url_regex (follow_link_default (fst (fst first)))
  = Some (PStr "^/nowhere") /\
  snd second = Raise conflicting_argument.
Proof. repeat split. Qed.

(** * Further properties of the interface *)

(** ** Navigation replaces the state or leaves the browser alone *)

Lemma replaced_or_kept_bind {A} (s : World * StatefulBrowser) (m : M A)
      (k : A -> M Response) (s0 : World * StatefulBrowser) :
  frame m ->
  snd s0 = snd s ->
  (forall a s1, snd s1 = snd s -> replaced_or_kept s (k a s1)) ->
  replaced_or_kept s (bind m k s0).
Proof.
  intros Hm H0 Hk. unfold bind. specialize (Hm s0).
  destruct (m s0) as [s1 [a | e]]; simpl in Hm.
  - apply Hk. congruence.
  - unfold replaced_or_kept. simpl. congruence.
Qed.

Lemma replaced_or_kept_open (B : Backend) (u : string)
      (kwargs : requests_kwargs) (s s0 : World * StatefulBrowser) :
  snd s0 = snd s -> replaced_or_kept s (open B u kwargs s0).
Proof.
  intro H0. rewrite open_run. unfold replaced_or_kept.
  destruct (Browser_get B _ u kwargs); simpl; congruence.
Qed.

Lemma refresh_replaces_or_keeps (B : Backend) (s : World * StatefulBrowser) :
  replaced_or_kept s (refresh B s).
Proof.
  destruct s as [[l fl dl] [d v [p u f r] r404 cfg]].
  unfold refresh, replaced_or_kept, bind, self, the_log, emit, lift_request,
    set_state, ret, raise; simpl.
  destruct r as [old |]; simpl; [| reflexivity].
  destruct (session_send B l old); reflexivity.
Qed.

Lemma follow_link_replaces_or_keeps (B : Backend) (link : pyval)
      (bs4_kw : option bs4_kwargs) (requests_kw : option requests_kwargs)
      (kwargs : bs4_kwargs) (s : World * StatefulBrowser) :
  replaced_or_kept s (follow_link B link bs4_kw requests_kw kwargs s).
Proof.
  unfold follow_link.
  apply replaced_or_kept_bind; [frame_tac | reflexivity |].
  intros d s1 H1.
  apply replaced_or_kept_bind; [frame_tac | exact H1 |].
  intros [] s2 H2.
  apply replaced_or_kept_bind; [frame_tac | exact H2 |].
  intros l s3 H3.
  apply replaced_or_kept_bind; [frame_tac | exact H3 |].
  intros rk s4 H4.
  destruct (get_attr "href" l).
  - rewrite open_relative_is_open. apply replaced_or_kept_open. exact H4.
  - unfold replaced_or_kept. simpl. exact H4.
Qed.

Lemma submit_selected_replaces_or_keeps (B : Backend) (btnName : pyval)
      (kwargs : requests_kwargs) (s : World * StatefulBrowser) :
  replaced_or_kept s (submit_selected B btnName true kwargs s).
Proof.
  unfold submit_selected.
  apply replaced_or_kept_bind; [unfold form; frame_tac | reflexivity |].
  intros f s1 H1.
  apply replaced_or_kept_bind; [frame_tac | exact H1 |].
  intros h s2 H2.
  apply replaced_or_kept_bind; [frame_tac | exact H2 |].
  intros [] s3 H3.
  destruct (choose_submit B h f btnName).
  { unfold replaced_or_kept. simpl. exact H3. }
  apply replaced_or_kept_bind; [frame_tac | exact H3 |].
  intros rk s4 H4.
  apply replaced_or_kept_bind; [frame_tac | exact H4 |].
  intros b s5 H5.
  apply replaced_or_kept_bind; [frame_tac | exact H5 |].
  intros h' s6 H6.
  apply replaced_or_kept_bind; [frame_tac | exact H6 |].
  intros [] s7 H7.
  destruct (Browser_submit B h' (st_form (state b)) (st_url (state b)) rk)
    as [e | resp]; unfold replaced_or_kept; simpl.
  - exact H7.
  - rewrite <- H7. destruct s7 as [w7 b7]. reflexivity.
Qed.

(** X1.  [open], [open_relative], [refresh], [follow_link] and
    [submit_selected] (with [update_state], its default) either return a
    response, and then the state is the one built from that response (its
    soup, its URL, its request, no selected form) with the settings of the
    browser untouched, or raise, and then the browser is as it was. *)
Theorem navigation_replaces_or_keeps (B : Backend)
        (s : World * StatefulBrowser) :
  (forall u kwargs, replaced_or_kept s (open B u kwargs s)) /\
  (forall u kwargs, replaced_or_kept s (open_relative B u kwargs s)) /\
  replaced_or_kept s (refresh B s) /\
  (forall link bs4_kw requests_kw kwargs,
      replaced_or_kept s (follow_link B link bs4_kw requests_kw kwargs s)) /\
  (forall btnName kwargs,
      replaced_or_kept s (submit_selected B btnName true kwargs s)).
Proof.
  split; [| split; [| split; [| split]]].
  - intros. apply replaced_or_kept_open. reflexivity.
  - intros. rewrite open_relative_is_open. apply replaced_or_kept_open.
    reflexivity.
  - apply refresh_replaces_or_keeps.
  - intros. apply follow_link_replaces_or_keeps.
  - intros. apply submit_selected_replaces_or_keeps.
Qed.

(** ** What a selection leaves untouched *)

Ltac split_match :=
  match goal with
  | |- context [match ?x with _ => _ end] =>
      match x with
      | context [match _ with _ => _ end] => fail 1
      | _ => destruct x eqn:?; simpl
      end
  end.

Lemma select_form_outcome (B : Backend) (selector : pyval) (nr : Z)
      (s : World * StatefulBrowser) :
  let out := select_form B selector nr s in
  let st := state (snd s) in
  (forall F,
      snd out = Return F ->
      fst (fst out) = fst s /\
      exists p,
        snd (fst out)
        = with_state (snd s)
            (mkBrowserState p (st_url st) (Some F) (st_request st))) /\
  (forall e,
      snd out = Raise e ->
      (e <> insert_into_itself -> snd (fst out) = snd s) /\
      exists change,
        (forall t, same_element (change t) t) /\
        snd (fst out) = with_state (snd s) (mutated change st)).
Proof.
  destruct s as [[l fl dl] [d v [[p |] u [[ft] |] r] r404 cfg]].
  all: unfold select_form, page_object, launch_browser, last_item, set_form,
    tree_mutated, mutated, form, selector_string, with_state, when.
  all: unfold page; unfold bind, self, ret, raise, emit, set_state; simpl.
  all: repeat split_match;
    (split; [intros F HF | intros e He]); simpl in *;
    try discriminate;
    try (inversion HF; subst; split; [reflexivity | eexists; reflexivity]);
    try (inversion He; subst;
         split;
         [ intro Hne; try reflexivity; try (exfalso; apply Hne; reflexivity)
         | first
             [ exists (fun t => t); split;
               [ intro; repeat split | reflexivity ]
             | match goal with
               | |- context [Some (graft ?i ?moved ?gone _)] =>
                   exists (graft i moved gone); split;
                   [ intro; apply same_element_graft | reflexivity ]
               | |- context [Some (extend ?rc ?tags _)] =>
                   exists (extend rc tags); split;
                   [ intro; apply same_element_extend | reflexivity ]
               end ] ]).
Qed.

(** X2.  When [select_form] returns a form, that form is the selected one:
    the [form] property and [get_current_form] give it back; nothing was
    logged, and the URL, the request and the settings of the browser are
    the ones from before. *)
Theorem select_form_selects (B : Backend) (selector : pyval) (nr : Z)
        (s s' : World * StatefulBrowser) (F : Form) :
  select_form B selector nr s = (s', Return F) ->
  form s' = (s', Return F) /\
  get_current_form s' = (s', Return (Some F)) /\
  fst s' = fst s /\
  st_url (state (snd s')) = st_url (state (snd s)) /\
  st_request (state (snd s')) = st_request (state (snd s)) /\
  debug (snd s') = debug (snd s) /\
  verbose (snd s') = verbose (snd s) /\
  raise_on_404 (snd s') = raise_on_404 (snd s) /\
  soup_config (snd s') = soup_config (snd s).
Proof.
  intro H.
  destruct (select_form_outcome B selector nr s) as [Hret _].
  rewrite H in Hret. simpl in Hret.
  destruct (Hret F eq_refl) as [Hw [p Hb]].
  destruct s' as [w' b']. simpl in Hw, Hb. subst w' b'.
  repeat split.
Qed.

Lemma select_form_selects_witness :
  form (fst (select_form Demo.backend (PStr "form") 0 Demo.at_home))
  = (fst (select_form Demo.backend (PStr "form") 0 Demo.at_home),
     Return (mkForm (selected_tag Demo.home Demo.the_form))).
Proof.
  exact (proj1 (select_form_selects Demo.backend (PStr "form") 0
                  Demo.at_home _ _ eq_refl)).
Defined.



(** The form is selected, then the [textarea]: [extend] moves the [input]
    out of the form into the [textarea] and raises on the [textarea]
    itself.  The form is still the selected one, and its tag has lost the
    [input], in the state as in the page. *)
Example selected_form_follows_the_page :
  let s := fst (select_form Demo.backend (PStr "form") 0
                            Demo.at_owned_elsewhere) in
  let out := select_form Demo.backend (PStr "textarea") 0 s in
  option_map form_tag (st_form (state (snd s)))
  = Some (Tag 2 "form" [] [Tag 3 "input" [("form", "x")] []]) /\
  snd out = Raise insert_into_itself /\
  option_map form_tag (st_form (state (snd (fst out))))
  = Some (Tag 2 "form" [] []) /\
  st_page (state (snd (fst out)))
  = Some (Tag 0 "[document]" []
            [ Tag 2 "form" [] [];
              Tag 4 "textarea" [("id", "x"); ("form", "x")]
                  [Tag 3 "input" [("form", "x")] []] ]).
Proof. repeat split. Qed.

(** ** Resolving and following a link *)

Lemma links_world (B : Backend) (url_regex link_text : pyval)
      (kwargs : list (string * attr_filter)) (w w' : World)
      (b : StatefulBrowser) :
  links B url_regex link_text kwargs (w, b)
  = ((w, b), snd (links B url_regex link_text kwargs (w', b))).
Proof.
  destruct b as [d v [p u f r] r404 cfg].
  unfold links, page_object. unfold page. unfold bind, self, ret, raise.
  simpl. repeat split_match; reflexivity.
Qed.

Lemma find_link_found (B : Backend) (kwargs : bs4_kwargs) (w w' : World)
      (b : StatefulBrowser) (l : node) (rest : list node) :
  snd (links_kw B kwargs (w', b)) = Return (l :: rest) ->
  find_link B kwargs (w, b) = ((w, b), Return l).
Proof.
  intro H. unfold find_link, bind. unfold links_kw in *.
  rewrite (links_world B _ _ _ w w' b), H. reflexivity.
Qed.

Lemma find_link_none (B : Backend) (kwargs : bs4_kwargs) (w w' : World)
      (b : StatefulBrowser) :
  snd (links_kw B kwargs (w', b)) = Return [] ->
  find_link B kwargs (w, b) = ((w, b), Raise LinkNotFoundError).
Proof.
  intro H. unfold find_link, bind. unfold links_kw in *.
  rewrite (links_world B _ _ _ w w' b), H. reflexivity.
Qed.

(** Every link that [links] returns is an [a] tag of the page with an
    [href]. *)
Lemma links_have_href (B : Backend) (url_regex link_text : pyval)
      (kwargs : list (string * attr_filter)) (s : World * StatefulBrowser)
      (ls : list node) :
  snd (links B url_regex link_text kwargs s) = Return ls ->
  forall a, In a ls ->
            name_is "a" a = true /\
            get_attr "href" a = Some (href a) /\
            exists soup, st_page (state (snd s)) = Some soup /\
                         In a (descendants soup).
Proof.
  destruct s as [w [d v [p u f r] r404 cfg]].
  unfold links, page_object. unfold page. unfold bind, self, ret, raise.
  simpl. destruct p as [soup |]; simpl; [| discriminate].
  destruct (has_key "href" kwargs); simpl; [discriminate |].
  assert (Hall : forall a,
             In a (find_all soup "a" (("href", FPresent) :: kwargs)) ->
             name_is "a" a = true /\
             get_attr "href" a = Some (href a) /\
             exists soup0, Some soup = Some soup0 /\ In a (descendants soup0)).
  { intros a Ha. unfold find_all in Ha. apply filter_In in Ha.
    destruct Ha as [Hin Hf]. apply andb_true_iff in Hf.
    destruct Hf as [Hn Hm]. simpl in Hm. apply andb_true_iff in Hm.
    destruct Hm as [Hh _]. split; [exact Hn |]. split; [| eauto].
    unfold href. destruct (get_attr "href" a); [reflexivity | discriminate]. }
  intros H a Ha. apply Hall.
  destruct url_regex as [| b0 | re | [re | i0 n0 a0 c0]];
    destruct link_text as [| b1 | tx | [tx | i1 n1 a1 c1]];
    simpl in H;
    try (destruct (find_all soup "a" (("href", FPresent) :: kwargs));
         simpl in H; [| discriminate H]);
    inversion H; subst; try contradiction;
    first
      [ exact Ha
      | apply filter_In in Ha; destruct Ha as [Ha _];
        first [ exact Ha
              | apply filter_In in Ha; destruct Ha as [Ha _]; exact Ha ] ].
Qed.

Lemma is_link_has_href (link : pyval) (t : node) :
  is_link link = Some t ->
  link = PTag t /\ get_attr "href" t = Some (href t).
Proof.
  destruct link as [| b | s | [s | i n a cs]]; try discriminate.
  unfold is_link, has_attr, href.
  destruct (get_attr "href" (Tag i n a cs)) eqn:E; [| discriminate].
  intro H. inversion H; subst. rewrite E. auto.
Qed.

Lemma find_link_internal_pattern (B : Backend) (r : dict_ref)
      (link : pyval) (d : bs4_kwargs) (s : World * StatefulBrowser) :
  is_link link = None ->
  no_conflict link d ->
  _find_link_internal B r link d s
  = on_link_not_found
      (find_link B (search_kwargs link d))
      (dbg <- get_debug ;;
       when dbg (emit (PrintFindLinkFailed (search_kwargs link d)) ;;;
                 list_links B empty_bs4_kwargs ;;;
                 launch_browser None))
      (if truthy link then fst (assign r (search_kwargs link d) s) else s).
Proof.
  intros Hl Hnc. unfold _find_link_internal, search_kwargs, no_conflict in *.
  rewrite Hl. destruct (truthy link).
  - rewrite (Hnc eq_refl). unfold bind at 1. unfold bind at 1.
    destruct r; reflexivity.
  - reflexivity.
Qed.

Lemma find_link_internal_handle (B : Backend) (r : dict_ref) (link : pyval)
      (d : bs4_kwargs) (s : World * StatefulBrowser) (t : node) :
  is_link link = Some t -> _find_link_internal B r link d s = (s, Return t).
Proof. intro H. unfold _find_link_internal. rewrite H. reflexivity. Qed.

Lemma assign_twice (r : dict_ref) (d d' : bs4_kwargs)
      (s : World * StatefulBrowser) :
  fst (assign r d' (fst (assign r d s))) = fst (assign r d' s).
Proof. destruct r; reflexivity. Qed.

Lemma assign_keeps (r : dict_ref) (d : bs4_kwargs)
      (s : World * StatefulBrowser) :
  snd (fst (assign r d s)) = snd s /\
  log (fst (fst (assign r d s))) = log (fst s).
Proof. destruct r; split; reflexivity. Qed.

(** [follow_link] up to the point where the link is looked up. *)
Lemma follow_link_by_pattern (B : Backend) (link : pyval)
      (bs4_kw : option bs4_kwargs) (requests_kw : option requests_kwargs)
      (kwargs : bs4_kwargs) (s : World * StatefulBrowser) :
  let d := dict_update (given_or (follow_link_default (fst s)) bs4_kw)
                       kwargs in
  is_link link = None ->
  no_conflict link d ->
  follow_link B link bs4_kw requests_kw kwargs s
  = bind (on_link_not_found
            (find_link B (search_kwargs link d))
            (dbg <- get_debug ;;
             when dbg (emit (PrintFindLinkFailed (search_kwargs link d)) ;;;
                       list_links B empty_bs4_kwargs ;;;
                       launch_browser None)))
         (fun l =>
            bind (_merge_referer (given_requests requests_kw))
                 (fun rk =>
                    match get_attr "href" l with
                    | None => raise (KeyError "href")
                    | Some h => open_relative B h rk
                    end))
         (fst (assign (follow_ref bs4_kw) (search_kwargs link d) s)).
Proof.
  intros d Hl Hnc.
  assert (Hd : d = dict_update (given_or (follow_link_default (fst s)) bs4_kw)
                               kwargs) by reflexivity.
  clearbody d.
  assert (E : follow_link B link bs4_kw requests_kw kwargs s
              = bind (_find_link_internal B (follow_ref bs4_kw) link d)
                     (fun l =>
                        bind (_merge_referer (given_requests requests_kw))
                             (fun rk =>
                                match get_attr "href" l with
                                | None => raise (KeyError "href")
                                | Some h => open_relative B h rk
                                end))
                     (fst (assign (follow_ref bs4_kw) d s))).
  { subst d. destruct s as [w b]. destruct bs4_kw; reflexivity. }
  assert (Hs : (if truthy link
                then fst (assign (follow_ref bs4_kw) (search_kwargs link d)
                                 (fst (assign (follow_ref bs4_kw) d s)))
                else fst (assign (follow_ref bs4_kw) d s))
               = fst (assign (follow_ref bs4_kw) (search_kwargs link d) s)).
  { destruct (truthy link) eqn:Ht.
    - apply assign_twice.
    - unfold search_kwargs. rewrite Ht. reflexivity. }
  rewrite E. unfold bind at 1.
  rewrite (find_link_internal_pattern B _ link d _ Hl Hnc), Hs.
  reflexivity.
Qed.

Lemma for_each_print_link (ls : list node) (w : World) (b : StatefulBrowser) :
  for_each (fun l => emit (PrintLink l)) ls (w, b)
  = ((logged w (map PrintLink ls), b), Return tt).
Proof.
  revert w. induction ls as [| l ls IH]; intro w; simpl.
  - unfold ret, logged. rewrite app_nil_r. destruct w; reflexivity.
  - unfold bind, emit. simpl. rewrite IH. unfold logged. simpl.
    rewrite <- app_assoc. reflexivity.
Qed.

(** What the handler of a failed lookup does, on a loaded page. *)
Lemma link_not_found_handler (B : Backend) (kwargs : bs4_kwargs) (w : World)
      (b : StatefulBrowser) (soup : node) :
  st_page (state b) = Some soup ->
  (dbg <- get_debug ;;
   when dbg (emit (PrintFindLinkFailed kwargs) ;;;
             list_links B empty_bs4_kwargs ;;;
             launch_browser None)) (w, b)
  = ((logged w (if debug b then link_not_found_report soup kwargs else []), b),
     Return tt).
Proof.
  intro Hp. unfold bind at 1. unfold get_debug. unfold bind at 1. simpl.
  destruct (debug b); simpl.
  - unfold bind at 1. unfold emit at 1. simpl.
    unfold bind at 1. unfold list_links.
    unfold bind at 1. unfold emit at 1. simpl.
    unfold bind at 1. unfold links_kw. simpl.
    rewrite (links_on_page B (_, b) soup Hp).
    rewrite for_each_print_link.
    unfold launch_browser, bind, page, self, ret, emit. simpl.
    rewrite Hp. unfold logged, link_not_found_report. simpl.
    rewrite <- !app_assoc. reflexivity.
  - unfold ret, logged. rewrite app_nil_r. destruct w; reflexivity.
Qed.

(** X4.  [follow_link] with a tag that has an [href] looks nothing up: it
    is [open_relative] on that [href] with the [Referer] merged into the
    keyword arguments, whatever page is loaded, even none, and whatever
    search keywords came with the call. *)
Theorem follow_link_with_a_link (B : Backend) (link : pyval) (t : node)
        (bs4_kw : option bs4_kwargs) (requests_kw : option requests_kwargs)
        (kwargs : bs4_kwargs) (s : World * StatefulBrowser) :
  is_link link = Some t ->
  let d := dict_update (given_or (follow_link_default (fst s)) bs4_kw)
                       kwargs in
  let s1 := fst (assign (follow_ref bs4_kw) d s) in
  snd s1 = snd s /\
  log (fst s1) = log (fst s) /\
  follow_link B link bs4_kw requests_kw kwargs s
  = open_relative B (href t)
      (merged (st_url (state (snd s))) (given_requests requests_kw)) s1.
Proof.
  intros Ht d s1.
  destruct (assign_keeps (follow_ref bs4_kw) d s) as [Hb Hl].
  split; [exact Hb |]. split; [exact Hl |].
  destruct (is_link_has_href link t Ht) as [_ Hh].
  assert (E : follow_link B link bs4_kw requests_kw kwargs s
              = bind (_find_link_internal B (follow_ref bs4_kw) link d)
                     (fun l =>
                        bind (_merge_referer (given_requests requests_kw))
                             (fun rk =>
                                match get_attr "href" l with
                                | None => raise (KeyError "href")
                                | Some h => open_relative B h rk
                                end)) s1).
  { subst s1 d. destruct s as [w b]. destruct bs4_kw; reflexivity. }
  rewrite E. unfold bind at 1.
  rewrite (find_link_internal_handle B _ link d s1 t Ht).
  unfold bind at 1. rewrite merge_referer_run, Hh.
  fold s1 in Hb. rewrite Hb. reflexivity.
Qed.

Lemma follow_link_with_a_link_witness :
  snd (follow_link Demo.backend
         (PTag (Tag 30 "a" [("href", "/elsewhere")] [])) None None
         empty_bs4_kwargs Demo.start)
  = snd (open_relative Demo.backend "/elsewhere" no_kwargs Demo.start).
Proof.
  destruct (follow_link_with_a_link Demo.backend
              (PTag (Tag 30 "a" [("href", "/elsewhere")] []))
              (Tag 30 "a" [("href", "/elsewhere")] []) None None
              empty_bs4_kwargs Demo.start eq_refl) as [_ [_ H]].
  rewrite H. reflexivity.
Defined.

(** X5.  [follow_link] with a pattern, or with nothing, opens the first of
    the links that [links] returns for the search keywords: the pattern as
    [url_regex] when there is one, next to the other keywords. *)
Theorem follow_link_opens_the_first_match (B : Backend) (link : pyval)
        (bs4_kw : option bs4_kwargs) (requests_kw : option requests_kwargs)
        (kwargs : bs4_kwargs) (s : World * StatefulBrowser)
        (l : node) (rest : list node) :
  let d := dict_update (given_or (follow_link_default (fst s)) bs4_kw)
                       kwargs in
  let s1 := fst (assign (follow_ref bs4_kw) (search_kwargs link d) s) in
  is_link link = None ->
  no_conflict link d ->
  snd (links_kw B (search_kwargs link d) s) = Return (l :: rest) ->
  follow_link B link bs4_kw requests_kw kwargs s
  = open_relative B (href l)
      (merged (st_url (state (snd s))) (given_requests requests_kw)) s1.
Proof.
  intros d s1 Hl Hnc Hfound.
  rewrite (follow_link_by_pattern B link bs4_kw requests_kw kwargs s Hl Hnc).
  fold d. fold s1.
  destruct (assign_keeps (follow_ref bs4_kw) (search_kwargs link d) s)
    as [Hb _]. fold s1 in Hb.
  destruct s as [w b]. destruct s1 as [w1 b1]. simpl in Hb. subst b1.
  unfold bind at 1. unfold on_link_not_found.
  rewrite (find_link_found B _ w1 w b l rest Hfound).
  unfold bind at 1. rewrite merge_referer_run.
  destruct (links_have_href B _ _ _ _ _ Hfound l (or_introl eq_refl))
    as [_ [Hh _]].
  rewrite Hh. reflexivity.
Qed.

Lemma follow_link_opens_the_first_match_witness :
  exists resp,
    snd (follow_link Demo.backend PNone None None empty_bs4_kwargs
                     Demo.at_home) = Return resp /\
    resp_url resp = "/a1".
Proof.
  rewrite (follow_link_opens_the_first_match Demo.backend PNone None None
             empty_bs4_kwargs Demo.at_home
             (Tag 2 "a" [("href", "/a1")] [Text "first"])
             [Tag 5 "a" [("href", "/b1")] [Text "second"];
              Tag 7 "a" [("href", "/a2")] [Text "third"]]
             eq_refl).
  - eexists. split; reflexivity.
  - intro H. discriminate H.
  - reflexivity.
Defined.

(** ** A link that is not found *)

Lemma lookup_fails {A} (B : Backend) (kwargs : bs4_kwargs) (K : node -> M A)
      (s s1 : World * StatefulBrowser) (soup : node) :
  snd s1 = snd s ->
  st_page (state (snd s)) = Some soup ->
  snd (links_kw B kwargs s) = Return [] ->
  bind (on_link_not_found
          (find_link B kwargs)
          (dbg <- get_debug ;;
           when dbg (emit (PrintFindLinkFailed kwargs) ;;;
                     list_links B empty_bs4_kwargs ;;;
                     launch_browser None)))
       K s1
  = ((logged (fst s1)
             (if debug (snd s) then link_not_found_report soup kwargs else []),
      snd s), Raise LinkNotFoundError).
Proof.
  intros Hb Hp Hnone. destruct s as [w b]. destruct s1 as [w1 b1].
  simpl in Hb, Hp. subst b1.
  unfold bind at 1. unfold on_link_not_found.
  rewrite (find_link_none B kwargs w1 w b Hnone).
  rewrite (link_not_found_handler B kwargs w1 b soup Hp). reflexivity.
Qed.

Lemma download_link_by_pattern (B : Backend) (link : pyval)
      (file : option string) (bs4_kw : option bs4_kwargs)
      (requests_kw : option requests_kwargs) (kwargs : bs4_kwargs)
      (s : World * StatefulBrowser) :
  let d := dict_update (given_or (download_link_default (fst s)) bs4_kw)
                       kwargs in
  is_link link = None ->
  no_conflict link d ->
  exists K,
    download_link B link file bs4_kw requests_kw kwargs s
    = bind (on_link_not_found
              (find_link B (search_kwargs link d))
              (dbg <- get_debug ;;
               when dbg (emit (PrintFindLinkFailed (search_kwargs link d)) ;;;
                         list_links B empty_bs4_kwargs ;;;
                         launch_browser None)))
           K
           (fst (assign (download_ref bs4_kw) (search_kwargs link d) s)).
Proof.
  intros d Hl Hnc.
  assert (Hd : d = dict_update (given_or (download_link_default (fst s))
                                         bs4_kw) kwargs) by reflexivity.
  clearbody d.
  assert (E : exists K,
             download_link B link file bs4_kw requests_kw kwargs s
             = bind (_find_link_internal B (download_ref bs4_kw) link d) K
                    (fst (assign (download_ref bs4_kw) d s))).
  { subst d. eexists. destruct s as [w b]. destruct bs4_kw; reflexivity. }
  destruct E as [K E]. exists K.
  assert (Hs : (if truthy link
                then fst (assign (download_ref bs4_kw) (search_kwargs link d)
                                 (fst (assign (download_ref bs4_kw) d s)))
                else fst (assign (download_ref bs4_kw) d s))
               = fst (assign (download_ref bs4_kw) (search_kwargs link d) s)).
  { destruct (truthy link) eqn:Ht.
    - apply assign_twice.
    - unfold search_kwargs. rewrite Ht. reflexivity. }
  rewrite E. unfold bind at 1.
  rewrite (find_link_internal_pattern B _ link d _ Hl Hnc), Hs.
  reflexivity.
Qed.

(** X6.  When no link of the loaded page passes the search keywords,
    [follow_link] and [download_link] raise [LinkNotFoundError] with the
    browser as it was and without any request: the log gets nothing, or in
    debug mode the failed keywords, the list of all links of the page and
    the launch of the viewer on the page. *)
Theorem link_not_found (B : Backend) (link : pyval) (file : option string)
        (bs4_kw : option bs4_kwargs) (requests_kw : option requests_kwargs)
        (kwargs : bs4_kwargs) (s : World * StatefulBrowser) (soup : node) :
  st_page (state (snd s)) = Some soup ->
  is_link link = None ->
  let report k :=
    if debug (snd s) then link_not_found_report soup k else [] in
  (let d := dict_update (given_or (follow_link_default (fst s)) bs4_kw)
                        kwargs in
   no_conflict link d ->
   snd (links_kw B (search_kwargs link d) s) = Return [] ->
   let out := follow_link B link bs4_kw requests_kw kwargs s in
   snd out = Raise LinkNotFoundError /\
   snd (fst out) = snd s /\
   log (fst (fst out)) = log (fst s) ++ report (search_kwargs link d)) /\
  (let d := dict_update (given_or (download_link_default (fst s)) bs4_kw)
                        kwargs in
   no_conflict link d ->
   snd (links_kw B (search_kwargs link d) s) = Return [] ->
   let out := download_link B link file bs4_kw requests_kw kwargs s in
   snd out = Raise LinkNotFoundError /\
   snd (fst out) = snd s /\
   log (fst (fst out)) = log (fst s) ++ report (search_kwargs link d)).
Proof.
  intros Hp Hl report. split.
  - intros d Hnc Hnone out. subst out.
    rewrite (follow_link_by_pattern B link bs4_kw requests_kw kwargs s Hl Hnc).
    fold d.
    destruct (assign_keeps (follow_ref bs4_kw) (search_kwargs link d) s)
      as [Hb Hlog].
    rewrite (lookup_fails B _ _ s _ soup Hb Hp Hnone). simpl.
    rewrite Hlog. auto.
  - intros d Hnc Hnone out. subst out.
    destruct (download_link_by_pattern B link file bs4_kw requests_kw kwargs s
                Hl Hnc) as [K E].
    rewrite E. fold d.
    destruct (assign_keeps (download_ref bs4_kw) (search_kwargs link d) s)
      as [Hb Hlog].
    rewrite (lookup_fails B _ _ s _ soup Hb Hp Hnone). simpl.
    rewrite Hlog. auto.
Qed.

Lemma link_not_found_witness :
  snd (follow_link Demo.backend (PStr "^/zzz") None None empty_bs4_kwargs
                   Demo.at_home) = Raise LinkNotFoundError.
Proof.
  apply (link_not_found Demo.backend (PStr "^/zzz") None None None
           empty_bs4_kwargs Demo.at_home Demo.home eq_refl eq_refl).
  - intro H. reflexivity.
  - reflexivity.
Defined.

(** ** The shared default dictionary *)

Lemma keeps_defaults_ret {A} (a : A) : keeps_defaults (ret a).
Proof. intro s. split; reflexivity. Qed.

Lemma keeps_defaults_raise {A} (e : exn) : keeps_defaults (@raise A e).
Proof. intro s. split; reflexivity. Qed.

Lemma keeps_defaults_bind {A C} (m : M A) (k : A -> M C) :
  keeps_defaults m -> (forall a, keeps_defaults (k a)) ->
  keeps_defaults (bind m k).
Proof.
  intros Hm Hk s. unfold bind. specialize (Hm s).
  destruct (m s) as [s' [a | e]]; simpl in *.
  - destruct (Hk a s') as [H1 H2]. destruct Hm as [H3 H4].
    split; congruence.
  - exact Hm.
Qed.

Lemma keeps_defaults_emit (e : event) : keeps_defaults (emit e).
Proof. intro s. split; reflexivity. Qed.

Lemma keeps_defaults_self : keeps_defaults self.
Proof. intro s. split; reflexivity. Qed.

Lemma keeps_defaults_the_log : keeps_defaults the_log.
Proof. intro s. split; reflexivity. Qed.

Lemma keeps_defaults_set_state (st : BrowserState) :
  keeps_defaults (set_state st).
Proof. intro s. split; reflexivity. Qed.

Lemma keeps_defaults_lift_exn {A} (r : exn + A) : keeps_defaults (lift_exn r).
Proof. destruct r; intro s; split; reflexivity. Qed.

Lemma keeps_defaults_on_link_not_found {A} (m : M A) (h : M unit) :
  keeps_defaults m -> keeps_defaults h ->
  keeps_defaults (on_link_not_found m h).
Proof.
  intros Hm Hh s. unfold on_link_not_found. specialize (Hm s).
  destruct (m s) as [s' [a | e]]; simpl in *; [exact Hm |].
  destruct e; try exact Hm.
  specialize (Hh s'). destruct (h s') as [s'' [u | e']]; simpl in *;
    destruct Hm, Hh; split; congruence.
Qed.

Lemma keeps_defaults_for_each {A} (f : A -> M unit) (l : list A) :
  (forall x, keeps_defaults (f x)) -> keeps_defaults (for_each f l).
Proof.
  intro Hf. induction l as [| x l IH]; simpl.
  - apply keeps_defaults_ret.
  - apply keeps_defaults_bind; auto.
Qed.

Ltac keeps_defaults_step :=
  first
    [ apply keeps_defaults_ret | apply keeps_defaults_raise
    | apply keeps_defaults_self | apply keeps_defaults_the_log
    | apply keeps_defaults_emit | apply keeps_defaults_set_state
    | apply keeps_defaults_lift_exn
    | apply keeps_defaults_on_link_not_found
    | apply keeps_defaults_for_each; intro
    | apply keeps_defaults_bind; [ | intro ]
    | match goal with
      | |- keeps_defaults (match ?x with _ => _ end) => destruct x
      end ].

Ltac keeps_defaults_tac := repeat keeps_defaults_step.

Lemma keeps_defaults_lookup_tail (B : Backend) (kwargs : bs4_kwargs)
      (requests_kw : option requests_kwargs) :
  keeps_defaults
    (bind (on_link_not_found
             (find_link B kwargs)
             (dbg <- get_debug ;;
              when dbg (emit (PrintFindLinkFailed kwargs) ;;;
                        list_links B empty_bs4_kwargs ;;;
                        launch_browser None)))
          (fun l =>
             bind (_merge_referer (given_requests requests_kw))
                  (fun rk =>
                     match get_attr "href" l with
                     | None => raise (KeyError "href")
                     | Some h => open_relative B h rk
                     end))).
Proof.
  unfold find_link, links_kw, links, list_links, links_kw, links,
    launch_browser, get_debug, _merge_referer, open_relative, absolute_url,
    open, get, page_object, when.
  unfold page, url.
  keeps_defaults_tac.
Qed.

Lemma follow_link_prefix (B : Backend) (link : pyval)
      (bs4_kw : option bs4_kwargs) (requests_kw : option requests_kwargs)
      (kwargs : bs4_kwargs) (s : World * StatefulBrowser) :
  exists K,
    follow_link B link bs4_kw requests_kw kwargs s
    = bind (_find_link_internal B (follow_ref bs4_kw) link
              (dict_update (given_or (follow_link_default (fst s)) bs4_kw)
                           kwargs))
           K
           (fst (assign (follow_ref bs4_kw)
                        (dict_update
                           (given_or (follow_link_default (fst s)) bs4_kw)
                           kwargs) s)).
Proof. eexists. destruct s as [w b]. destruct bs4_kw; reflexivity. Qed.

Lemma find_link_internal_conflict (B : Backend) (r : dict_ref) (link v : pyval)
      (d : bs4_kwargs) (s : World * StatefulBrowser) :
  is_link link = None -> truthy link = true -> kw_url_regex d = Some v ->
  _find_link_internal B r link d s = (s, Raise conflicting_argument).
Proof.
  intros Hl Ht Hv. unfold _find_link_internal. rewrite Hl, Ht, Hv.
  reflexivity.
Qed.

(** X7.  [follow_link] called without [bs4_kwargs] works on one dictionary
    that all such calls share.  After a call with a pattern the dictionary
    holds the keywords of the call and the pattern as [url_regex] (the
    dictionary of [download_link] is another one and is untouched), so a
    later call with a pattern and without [bs4_kwargs] raises the
    conflicting-argument error, whatever its own keywords are. *)
Theorem follow_link_default_is_kept (B : Backend) (link : pyval)
        (requests_kw : option requests_kwargs) (kwargs : bs4_kwargs)
        (s : World * StatefulBrowser) :
  let d := dict_update (follow_link_default (fst s)) kwargs in
  let s' := fst (follow_link B link None requests_kw kwargs s) in
  is_link link = None ->
  no_conflict link d ->
  follow_link_default (fst s') = search_kwargs link d /\
  download_link_default (fst s') = download_link_default (fst s) /\
  (truthy link = true ->
   forall link2 requests_kw2 kwargs2,
     is_link link2 = None ->
     truthy link2 = true ->
     snd (follow_link B link2 None requests_kw2 kwargs2 s')
     = Raise conflicting_argument).
Proof.
  intros d s' Hl Hnc.
  assert (Hdef : follow_link_default (fst s') = search_kwargs link d /\
                 download_link_default (fst s')
                 = download_link_default (fst s)).
  { subst s'.
    rewrite (follow_link_by_pattern B link None requests_kw kwargs s Hl Hnc).
    simpl given_or. fold d.
    destruct (keeps_defaults_lookup_tail B (search_kwargs link d) requests_kw
                (fst (assign (follow_ref None) (search_kwargs link d) s)))
      as [H1 H2].
    rewrite H1, H2. destruct s as [w b]. split; reflexivity. }
  destruct Hdef as [Hf Hd]. split; [exact Hf |]. split; [exact Hd |].
  intros Ht link2 requests_kw2 kwargs2 Hl2 Ht2.
  destruct (follow_link_prefix B link2 None requests_kw2 kwargs2 s')
    as [K E].
  rewrite E. simpl given_or. unfold bind.
  rewrite (find_link_internal_conflict B _ link2
             (match kw_url_regex kwargs2 with Some v => v | None => link end)
             _ _ Hl2 Ht2).
  - reflexivity.
  - rewrite Hf. unfold dict_update, search_kwargs, or_else. rewrite Ht. simpl.
    destruct (kw_url_regex kwargs2); reflexivity.
Qed.

Lemma follow_link_default_is_kept_witness :
  follow_link_default
    (fst (fst (follow_link Demo.backend (PStr "^/b") None None
                           empty_bs4_kwargs Demo.at_home)))
  = mkBs4Kwargs (Some (PStr "^/b")) None [].
Proof.
  apply (follow_link_default_is_kept Demo.backend (PStr "^/b") None
           empty_bs4_kwargs Demo.at_home eq_refl).
  intro H. reflexivity.
Defined.

(** ** A browser with no page *)

(** X8.  With no page in the state (a browser that never opened one),
    [links], [find_link] and [select_form] with a selector raise the
    [AttributeError] of a method called on [None] and change nothing;
    [follow_link] and [download_link] with a pattern or with nothing do the
    same, without a request and without debug output, the browser as it
    was.  A [form] tag without [id] can still be selected. *)
Theorem without_a_page (B : Backend) (s : World * StatefulBrowser) :
  st_page (state (snd s)) = None ->
  (forall url_regex link_text kwargs,
      links B url_regex link_text kwargs s = (s, Raise no_page)) /\
  (forall kwargs, find_link B kwargs s = (s, Raise no_page)) /\
  (forall sel nr, select_form B (PStr sel) nr s = (s, Raise no_page)) /\
  (forall i a cs nr,
      get_attr "id" (Tag i "form" a cs) = None ->
      snd (select_form B (PTag (Tag i "form" a cs)) nr s)
      = Return (mkForm (Tag i "form" a cs))) /\
  (forall link bs4_kw requests_kw kwargs,
      is_link link = None ->
      no_conflict link
        (dict_update (given_or (follow_link_default (fst s)) bs4_kw) kwargs) ->
      let out := follow_link B link bs4_kw requests_kw kwargs s in
      snd out = Raise no_page /\ snd (fst out) = snd s /\
      log (fst (fst out)) = log (fst s)) /\
  (forall link file bs4_kw requests_kw kwargs,
      is_link link = None ->
      no_conflict link
        (dict_update (given_or (download_link_default (fst s)) bs4_kw)
                     kwargs) ->
      let out := download_link B link file bs4_kw requests_kw kwargs s in
      snd out = Raise no_page /\ snd (fst out) = snd s /\
      log (fst (fst out)) = log (fst s)).
Proof.
  intro Hp.
  assert (Hlinks : forall url_regex link_text kwargs w,
             links B url_regex link_text kwargs (w, snd s)
             = ((w, snd s), Raise no_page)).
  { intros. destruct s as [w0 [d v [p u f r] r404 cfg]]. simpl in Hp.
    subst p. reflexivity. }
  assert (Hfind : forall kwargs w,
             find_link B kwargs (w, snd s) = ((w, snd s), Raise no_page)).
  { intros. unfold find_link, links_kw, bind. rewrite Hlinks. reflexivity. }
  assert (Hlookup : forall A kwargs (K : node -> M A) s1,
             snd s1 = snd s ->
             bind (on_link_not_found
                     (find_link B kwargs)
                     (dbg <- get_debug ;;
                      when dbg (emit (PrintFindLinkFailed kwargs) ;;;
                                list_links B empty_bs4_kwargs ;;;
                                launch_browser None)))
                  K s1
             = (s1, Raise no_page)).
  { intros A kwargs K [w1 b1] Hb. simpl in Hb. subst b1.
    unfold bind, on_link_not_found. rewrite Hfind. reflexivity. }
  split; [| split; [| split; [| split; [| split]]]].
  - intros. destruct s as [w b]. apply Hlinks.
  - intros. destruct s as [w b]. apply Hfind.
  - intros. destruct s as [w [d v [p u f r] r404 cfg]]. simpl in Hp.
    subst p. reflexivity.
  - intros i a cs nr Hid.
    destruct s as [w [d v [p u f r] r404 cfg]].
    unfold select_form. simpl. unfold bind at 1. simpl.
    rewrite Hid. reflexivity.
  - intros link bs4_kw requests_kw kwargs Hl Hnc out. subst out.
    rewrite (follow_link_by_pattern B link bs4_kw requests_kw kwargs s Hl Hnc).
    destruct (assign_keeps (follow_ref bs4_kw)
                (search_kwargs link
                   (dict_update
                      (given_or (follow_link_default (fst s)) bs4_kw) kwargs))
                s) as [Hb Hlog].
    rewrite (Hlookup _ _ _ _ Hb). simpl. auto.
  - intros link file bs4_kw requests_kw kwargs Hl Hnc out. subst out.
    destruct (download_link_by_pattern B link file bs4_kw requests_kw kwargs s
                Hl Hnc) as [K E].
    rewrite E.
    destruct (assign_keeps (download_ref bs4_kw)
                (search_kwargs link
                   (dict_update
                      (given_or (download_link_default (fst s)) bs4_kw)
                      kwargs))
                s) as [Hb Hlog].
    rewrite (Hlookup _ _ _ _ Hb). simpl. auto.
Qed.

Lemma without_a_page_witness :
  find_link Demo.backend empty_bs4_kwargs Demo.start
  = (Demo.start, Raise no_page).
Proof.
  exact (proj1 (proj2 (without_a_page Demo.backend Demo.start eq_refl))
               empty_bs4_kwargs).
Defined.

(** ** Submitting *)

(** X9.  [submit_selected] either raises the error of the [form] property
    with nothing done, when no form is selected; or raises what
    [Form.choose_submit] raised, with nothing submitted and the browser as
    it was; or submits once: the selected form, to the URL of the state,
    with the [Referer] merged into the keyword arguments.  It then returns
    or raises what [Browser.submit] did, and the state is replaced only
    when a response came back and [update_state] is set. *)
Theorem submit_selected_steps (B : Backend) (btnName : pyval)
        (update_state : bool) (kwargs : requests_kwargs)
        (s : World * StatefulBrowser) :
  submit_selected B btnName update_state kwargs s
  = match st_form (state (snd s)) with
    | None => (s, Raise unselected_form)
    | Some f =>
        match choose_submit B (log (fst s)) f btnName with
        | Some e => ((logged (fst s) [ChooseSubmit f btnName], snd s), Raise e)
        | None =>
            let u := st_url (state (snd s)) in
            let rk := merged u kwargs in
            let w := logged (fst s) [ChooseSubmit f btnName;
                                     BrowserSubmit (Some f) u rk] in
            match Browser_submit B (log (fst s) ++ [ChooseSubmit f btnName])
                                 (Some f) u rk with
            | inr resp =>
                ((w, if update_state
                     then with_state (snd s) (state_of_response resp)
                     else snd s),
                 Return resp)
            | inl e => ((w, snd s), Raise e)
            end
        end
    end.
Proof.
  destruct s as [[l fl dl] [d v [p u f r] r404 cfg]]. simpl.
  unfold submit_selected, form. unfold bind at 1. simpl.
  destruct f as [f |]; simpl; [| reflexivity].
  unfold bind at 1. simpl. unfold bind at 1. cbn -[_merge_referer].
  destruct (choose_submit B l f btnName); [reflexivity |].
  unfold bind at 1. rewrite merge_referer_run. simpl.
  unfold bind, self, the_log, emit, lift_exn, when, set_state, ret, raise,
    logged, with_state; simpl.
  destruct (Browser_submit B _ (Some f) u _); simpl;
    [| destruct update_state; simpl];
    rewrite <- app_assoc; reflexivity.
Qed.

(** ** Downloading *)

(** X10.  [download_link] with a tag that has an [href] makes one request,
    with [session.get] and not with [Browser.get]: to the [href] joined to
    the URL of the state, with the [Referer] merged in.  A 404 answer
    raises [LinkNotFoundError] when [raise_on_404] is set and is then not
    written to the file; any other answer, a 404 without [raise_on_404]
    included, is written to the file when one is given and returned.  The
    browser is the same in every case. *)
Theorem download_link_steps (B : Backend) (link : pyval) (t : node)
        (file : option string) (bs4_kw : option bs4_kwargs)
        (requests_kw : option requests_kwargs) (kwargs : bs4_kwargs)
        (s : World * StatefulBrowser) :
  is_link link = Some t ->
  let d := dict_update (given_or (download_link_default (fst s)) bs4_kw)
                       kwargs in
  let w1 := fst (fst (assign (download_ref bs4_kw) d s)) in
  let target := urljoin B (st_url (state (snd s))) (href t) in
  let rk := merged (st_url (state (snd s))) (given_requests requests_kw) in
  let sent := SessionGet target rk in
  download_link B link file bs4_kw requests_kw kwargs s
  = match session_get B (log (fst s)) target rk with
    | inl c => ((logged w1 [sent], snd s), Raise (RequestException c))
    | inr response =>
        if raise_on_404 (snd s) && (resp_status_code response =? 404)%Z
        then ((logged w1 [sent], snd s), Raise LinkNotFoundError)
        else
          match file with
          | None => ((logged w1 [sent], snd s), Return response)
          | Some path =>
              let written := FileWrite path (resp_content response) in
              match file_write B (log (fst s) ++ [sent]) path
                               (resp_content response) with
              | None => ((logged w1 [sent; written], snd s), Return response)
              | Some c => ((logged w1 [sent; written], snd s),
                           Raise (IOError c))
              end
          end
    end.
Proof.
  intros Ht d w1 target rk sent.
  destruct (is_link_has_href link t Ht) as [_ Hh].
  destruct s as [[l fl dl] b].
  assert (E : download_link B link file bs4_kw requests_kw kwargs
                            (mkWorld l fl dl, b)
              = bind (_find_link_internal B (download_ref bs4_kw) link d)
                     (fun link0 =>
                        match get_attr "href" link0 with
                        | None => raise (KeyError "href")
                        | Some h =>
                            bind (absolute_url B h)
                              (fun target0 =>
                                 bind (_merge_referer
                                         (given_requests requests_kw))
                                   (fun rk0 =>
                                      bind the_log
                                        (fun hist =>
                                           bind (emit (SessionGet target0 rk0))
                                             (fun _ =>
                                                bind (lift_request
                                                        (session_get B hist
                                                           target0 rk0))
                                                  (fun response =>
                                                     bind self
                                                       (fun b0 =>
       if raise_on_404 b0 && (resp_status_code response =? 404)%Z
       then raise LinkNotFoundError
       else
         match file with
         | Some path =>
             bind the_log
               (fun hist0 =>
                  bind (emit (FileWrite path (resp_content response)))
                    (fun _ =>
                       match file_write B hist0 path (resp_content response)
                       with
                       | Some c => raise (IOError c)
                       | None => ret response
                       end))
         | None => ret response
         end))))))
                        end)
                     (w1, b)).
  { subst w1 d. destruct bs4_kw; reflexivity. }
  rewrite E. clear E. unfold bind at 1.
  rewrite (find_link_internal_handle B _ link d _ t Ht), Hh.
  unfold bind at 1. unfold absolute_url. unfold bind at 1. unfold url.
  unfold bind at 1. simpl self. cbn -[_merge_referer].
  unfold bind at 1. rewrite merge_referer_run.
  assert (Hl1 : log w1 = l) by (subst w1 d; destruct bs4_kw; reflexivity).
  subst sent rk target. clearbody w1. clear d.
  unfold bind, the_log, emit, lift_request, self, ret, raise, logged; simpl.
  rewrite Hl1.
  destruct (session_get B l _ _) as [c | response]; simpl; [reflexivity |].
  destruct (raise_on_404 b && (resp_status_code response =? 404)%Z); simpl;
    [reflexivity |].
  destruct file as [path |]; simpl; [| reflexivity].
  destruct (file_write B _ path (resp_content response)); simpl;
    rewrite <- app_assoc; reflexivity.
Qed.

Lemma download_link_steps_witness :
  In (FileWrite "out.bin" "gone")
     (log (fst (fst (download_link Demo.backend
                       (PTag (Tag 40 "a" [("href", "/missing")] []))
                       (Some "out.bin") None None empty_bs4_kwargs
                       Demo.at_home)))).
Proof.
  rewrite (download_link_steps Demo.backend
             (PTag (Tag 40 "a" [("href", "/missing")] []))
             (Tag 40 "a" [("href", "/missing")] [])
             (Some "out.bin") None None empty_bs4_kwargs Demo.at_home
             eq_refl).
  simpl. tauto.
Defined.

(** ** What every call keeps *)

Lemma kept_by_call_same (b : StatefulBrowser) : kept_by_call b b.
Proof. repeat split; auto. Qed.

Lemma kept_by_call_frame {A} (m : M A) (s : World * StatefulBrowser) :
  frame m -> kept_by_call (snd s) (snd (fst (m s))).
Proof. intro H. rewrite (H s). apply kept_by_call_same. Qed.

Lemma kept_by_call_navigation (s : World * StatefulBrowser)
      (out : (World * StatefulBrowser) * result Response) :
  replaced_or_kept s out -> kept_by_call (snd s) (snd (fst out)).
Proof.
  unfold replaced_or_kept. destruct (snd out) as [resp | e]; intro H;
    rewrite H.
  - repeat split. intros _ _. simpl. discriminate.
  - apply kept_by_call_same.
Qed.

Lemma kept_by_call_select_form (B : Backend) (selector : pyval) (nr : Z)
      (s : World * StatefulBrowser) :
  kept_by_call (snd s) (snd (fst (select_form B selector nr s))).
Proof.
  destruct (select_form_outcome B selector nr s) as [Hret Hraise].
  destruct (snd (select_form B selector nr s)) as [F | e] eqn:E.
  - destruct (Hret F eq_refl) as [_ [p Hb]]. rewrite Hb.
    repeat split. intro H. exact H.
  - destruct (Hraise e eq_refl) as [_ [change [_ Hb]]]. rewrite Hb.
    repeat split. intro H. exact H.
Qed.

Lemma kept_by_call_perform (B : Backend) (c : call)
      (s : World * StatefulBrowser) :
  sets_debug c = false -> sets_verbose c = false ->
  kept_by_call (snd s) (snd (perform B c s)).
Proof.
  intros Hd Hv. destruct c; try discriminate; simpl.
  - apply kept_by_call_navigation. apply replaced_or_kept_open. reflexivity.
  - repeat split. intros _ H. simpl in H. contradiction H. reflexivity.
  - apply kept_by_call_navigation. rewrite open_relative_is_open.
    apply replaced_or_kept_open. reflexivity.
  - apply kept_by_call_navigation. apply refresh_replaces_or_keeps.
  - apply kept_by_call_select_form.
  - destruct update_state.
    + apply kept_by_call_navigation. apply submit_selected_replaces_or_keeps.
    + apply kept_by_call_frame. unfold submit_selected, form. frame_tac.
  - apply kept_by_call_frame. apply quiet_frame. auto with quiet.
  - apply kept_by_call_frame. apply quiet_frame. auto with quiet.
  - apply kept_by_call_frame. apply quiet_frame. auto with quiet.
  - apply kept_by_call_navigation. apply follow_link_replaces_or_keeps.
  - apply kept_by_call_frame. unfold download_link. frame_tac.
  - apply kept_by_call_same.
Qed.

(** X11.  Whatever calls are made on the browser, in whatever order and
    whether they return or raise: [raise_on_404] and the parser
    configuration stay as they were; the debug flag changes only by
    [set_debug] and the verbosity only by [set_verbose]; and a state that
    holds a request to refresh with also holds a URL, if that was so at the
    start, as it is for a new browser. *)
Theorem calls_keep_the_settings (B : Backend) (calls : list call)
        (s : World * StatefulBrowser) :
  let b' := snd (perform_all B calls s) in
  raise_on_404 b' = raise_on_404 (snd s) /\
  soup_config b' = soup_config (snd s) /\
  (existsb sets_debug calls = false -> debug b' = debug (snd s)) /\
  (existsb sets_verbose calls = false -> verbose b' = verbose (snd s)) /\
  (refreshable_has_url (snd s) -> refreshable_has_url b') /\
  (forall raise404 config w,
      refreshable_has_url
        (snd (perform_all B calls (w, init raise404 config)))).
Proof.
  assert (Hall : forall calls s,
             let b' := snd (perform_all B calls s) in
             raise_on_404 b' = raise_on_404 (snd s) /\
             soup_config b' = soup_config (snd s) /\
             (existsb sets_debug calls = false -> debug b' = debug (snd s)) /\
             (existsb sets_verbose calls = false ->
              verbose b' = verbose (snd s)) /\
             (refreshable_has_url (snd s) -> refreshable_has_url b')).
  { clear calls s. induction calls as [| c calls IH]; intro s; simpl.
    - repeat split; auto.
    - destruct (IH (perform B c s)) as [H1 [H2 [H3 [H4 H5]]]].
      unfold perform_all in *. simpl.
      assert (Hc : raise_on_404 (snd (perform B c s)) = raise_on_404 (snd s) /\
                   soup_config (snd (perform B c s)) = soup_config (snd s) /\
                   (sets_debug c = false ->
                    debug (snd (perform B c s)) = debug (snd s)) /\
                   (sets_verbose c = false ->
                    verbose (snd (perform B c s)) = verbose (snd s)) /\
                   (refreshable_has_url (snd s) ->
                    refreshable_has_url (snd (perform B c s)))).
      { destruct (sets_debug c) eqn:Ed; [| destruct (sets_verbose c) eqn:Ev].
        - destruct c; try discriminate Ed. simpl.
          repeat split; auto. discriminate.
        - destruct c; try discriminate Ev. simpl.
          repeat split; auto. discriminate.
        - destruct (kept_by_call_perform B c s Ed Ev)
            as [K1 [K2 [K3 [K4 K5]]]].
          repeat split; auto. }
      destruct Hc as [C1 [C2 [C3 [C4 C5]]]].
      split; [congruence |]. split; [congruence |].
      split; [| split].
      + intro H. apply orb_false_iff in H. destruct H as [Ha Hb].
        rewrite (H3 Hb). apply C3. exact Ha.
      + intro H. apply orb_false_iff in H. destruct H as [Ha Hb].
        rewrite (H4 Hb). apply C4. exact Ha.
      + intro H. apply H5. apply C5. exact H. }
  destruct (Hall calls s) as [H1 [H2 [H3 [H4 H5]]]].
  intro b'. repeat split; auto.
  intros raise404 config w.
  destruct (Hall calls (w, init raise404 config)) as [_ [_ [_ [_ H]]]].
  apply H. intro Hr. simpl in Hr. contradiction Hr. reflexivity.
Qed.

(** ** The headers after [_merge_referer] *)

Module MergedHeaders.
Import CaseInsensitiveDict CaseInsensitiveDictFacts.

Lemma getitem_lower (k k' : string) (store : t) :
  lower k = lower k' -> getitem k store = getitem k' store.
Proof.
  intro H. induction store as [| [k0 kv] rest IH]; simpl; [reflexivity |].
  rewrite H, IH. reflexivity.
Qed.

Lemma contains_in (key : string) (store : t) :
  contains key store = true <-> In (lower key) (map fst store).
Proof.
  unfold contains. rewrite existsb_exists. split.
  - intros [e [He Hk]]. apply String.eqb_eq in Hk. rewrite <- Hk.
    apply in_map. exact He.
  - intro H. apply in_map_iff in H. destruct H as [e [Hk He]].
    exists e. split; [exact He | apply String.eqb_eq; exact Hk].
Qed.

Lemma setitem_keys (key value : string) (store : t) :
  map fst (setitem key value store)
  = if contains key store then map fst store
    else map fst store ++ [lower key].
Proof.
  induction store as [| [k0 kv] rest IH]; simpl; [reflexivity |].
  destruct (String.eqb k0 (lower key)); simpl; [reflexivity |].
  rewrite IH. destruct (contains key rest); reflexivity.
Qed.

Lemma setitem_well_keyed (key value : string) (store : t) :
  well_keyed store -> well_keyed (setitem key value store).
Proof.
  intros [Hnd Hk]. split.
  - rewrite setitem_keys. destruct (contains key store) eqn:E; [exact Hnd |].
    apply NoDup_app; [exact Hnd | repeat constructor; intros [] | ].
    intros x Hx [Hl | []]. subst x.
    apply contains_in in Hx. congruence.
  - clear Hnd. induction store as [| [k0 kv] rest IH]; simpl.
    + repeat constructor.
    + inversion Hk as [| ? ? H0 Hrest]; subst.
      destruct (String.eqb_spec k0 (lower key)) as [E | E].
      * constructor; [exact E | exact Hrest].
      * constructor; [exact H0 | apply IH; exact Hrest].
Qed.

Lemma make_well_keyed (data : dict) : well_keyed (make data).
Proof.
  unfold make.
  assert (H : forall store, well_keyed store ->
                            well_keyed
                              (fold_left
                                 (fun st kv => setitem (fst kv) (snd kv) st)
                                 data store)).
  { induction data as [| [k v] data IH]; intros store Hs; simpl.
    - exact Hs.
    - apply IH. apply setitem_well_keyed. exact Hs. }
  apply H. split; constructor.
Qed.

Lemma no_match_fold (k : string) (l : dict) (acc : option string) :
  (forall kv, In kv l -> String.eqb (lower (fst kv)) (lower k) = false) ->
  fold_left
    (fun acc kv =>
       if String.eqb (lower (fst kv)) (lower k) then Some (snd kv) else acc)
    l acc = acc.
Proof.
  revert acc. induction l as [| kv l IH]; intros acc H; simpl.
  - reflexivity.
  - rewrite (H kv (or_introl eq_refl)). apply IH.
    intros kv' Hin. apply H. right. exact Hin.
Qed.

(** Reading a store back through its items finds what the store holds. *)
Lemma header_of_items (k : string) (store : t) :
  well_keyed store -> header k (items store) = getitem k store.
Proof.
  intro Hw. unfold header, make. rewrite getitem_fold. simpl getitem.
  induction store as [| [k0 [key v]] rest IH]; simpl; [reflexivity |].
  destruct Hw as [Hnd Hk]. simpl in Hnd.
  inversion Hnd as [| ? ? Hnot Hnd']; subst.
  inversion Hk as [| ? ? H0 Hk']; subst. simpl in H0. subst k0.
  destruct (String.eqb_spec (lower key) (lower k)) as [E | E].
  - apply no_match_fold. intros [key' v'] Hin.
    apply String.eqb_neq. intro E'. apply Hnot.
    unfold items in Hin. apply in_map_iff in Hin.
    destruct Hin as [[k1 [key1 v1]] [Heq Hin]]. simpl in Heq.
    inversion Heq; subst key1 v1.
    rewrite Forall_forall in Hk'. specialize (Hk' _ Hin). simpl in Hk'.
    simpl in E'. rewrite E, <- E', <- Hk'.
    apply (in_map fst) in Hin. exact Hin.
  - apply IH. split; assumption.
Qed.

End MergedHeaders.

(** X12.  The headers of the keyword arguments [_merge_referer] returns,
    read by any name without regard to case: [Referer] is the caller's
    when the caller gave one, else the URL of the state when there is one;
    every other header is exactly the caller's.  The other keyword
    arguments are the caller's, and merging a second time changes
    nothing. *)
Theorem merged_headers (u : option string) (kwargs : requests_kwargs)
        (k : string) :
  header k (headers_of (merged u kwargs))
  = (if String.eqb (lower k) "referer"
     then or_else (referer_of kwargs) u
     else header k (headers_of kwargs)) /\
  kw_other (merged u kwargs) = kw_other kwargs /\
  merged u (merged u kwargs) = merged u kwargs.
Proof.
  assert (Hcaller : String.eqb (lower k) "referer" = true ->
                    header k (headers_of kwargs) = referer_of kwargs).
  { intro E. apply String.eqb_eq in E. rewrite referer_of_caller.
    unfold header, headers_of. apply MergedHeaders.getitem_lower.
    rewrite E. reflexivity. }
  destruct (referer_of kwargs) as [v |] eqn:Er.
  - rewrite (merged_keeps u kwargs v Er).
    split; [| split; [reflexivity | apply (merged_keeps u kwargs v Er)]].
    destruct (String.eqb (lower k) "referer") eqn:E; [| reflexivity].
    rewrite (Hcaller eq_refl). reflexivity.
  - destruct u as [r |].
    + destruct (merged_adds r kwargs Er) as [Hr Ho].
      split; [| split; [exact Ho | apply (merged_keeps _ _ r Hr)]].
      rewrite referer_of_caller in Er. unfold merged.
      rewrite CaseInsensitiveDictFacts.contains_getitem, Er. simpl.
      unfold headers_of at 1. simpl.
      rewrite MergedHeaders.header_of_items
        by (apply MergedHeaders.setitem_well_keyed,
              MergedHeaders.make_well_keyed).
      rewrite CaseInsensitiveDictFacts.getitem_setitem.
      change (lower "Referer") with "referer".
      rewrite String.eqb_sym.
      destruct (String.eqb (lower k) "referer"); reflexivity.
    + split; [| split; reflexivity]. simpl.
      destruct (String.eqb (lower k) "referer") eqn:E; [| reflexivity].
      rewrite (Hcaller eq_refl). reflexivity.
Qed.

(** ** What [open] and [open_relative] send *)

(** X13.  [open] makes exactly one request, with [Browser.get], to the URL
    it was given and with the keyword arguments it was given: unlike
    [follow_link] it adds no [Referer].  [open_relative] does the same on
    the URL joined to the URL of the state.  Before the request one dot is
    written at verbosity 1 and the URL requested at verbosity 2 or more;
    nothing at any other verbosity, negative ones included. *)
Theorem open_sends_one_request (B : Backend) (u : string)
        (kwargs : requests_kwargs) (s : World * StatefulBrowser) :
  let v := verbose (snd s) in
  let target := urljoin B (st_url (state (snd s))) u in
  log (fst (fst (open B u kwargs s)))
  = log (fst s) ++ progress v u ++ [BrowserGet u kwargs] /\
  log (fst (fst (open_relative B u kwargs s)))
  = log (fst s) ++ progress v target ++ [BrowserGet target kwargs] /\
  ((v < 1)%Z -> progress v u = []) /\
  (v = 1%Z -> progress v u = [StdoutWrite "."]) /\
  ((v >= 2)%Z -> progress v u = [StdoutWrite u]) /\
  snd (open B u kwargs s)
  = match Browser_get B (log (fst s) ++ progress v u) u kwargs with
    | inr resp => Return resp
    | inl e => Raise e
    end.
Proof.
  intros v target.
  assert (Hlog : forall u0,
             log (fst (fst (open B u0 kwargs s)))
             = log (fst s) ++ progress v u0 ++ [BrowserGet u0 kwargs]).
  { intro u0. rewrite open_run.
    destruct (Browser_get B _ u0 kwargs); reflexivity. }
  split; [apply Hlog |].
  split; [rewrite open_relative_is_open; apply Hlog |].
  unfold progress.
  split; [| split; [| split]].
  - intro H. destruct (v =? 1)%Z eqn:E1; [apply Z.eqb_eq in E1; lia |].
    destruct (v >=? 2)%Z eqn:E2; [| reflexivity].
    rewrite Z.geb_le in E2. lia.
  - intro H. rewrite H. reflexivity.
  - intro H. destruct (v =? 1)%Z eqn:E1; [apply Z.eqb_eq in E1; lia |].
    destruct (v >=? 2)%Z eqn:E2; [reflexivity |].
    assert (~ (2 <= v)%Z) by (rewrite <- Z.geb_le; congruence). lia.
  - rewrite open_run. fold v.
    destruct (Browser_get B _ u kwargs); reflexivity.
Qed.

(** ** A selector that does not give the form *)

(** X14.  On a loaded page, when the selector engine does not return
    exactly [nr + 1] tags for a selector, [select_form] raises
    [LinkNotFoundError] with the browser as it was; in debug mode it has
    first printed the selector and launched the viewer on the page, and
    otherwise nothing is logged.  For an index below -1 this is the
    outcome whatever the page holds, since no list has [nr + 1] tags. *)
Theorem select_form_lookup_fails (B : Backend) (sel : string) (nr : Z)
        (s : World * StatefulBrowser) (soup : node) :
  st_page (state (snd s)) = Some soup ->
  let failed :=
    ((logged (fst s)
             (if debug (snd s)
              then [PrintSelectFormFailed (PStr sel);
                    LaunchBrowser (Some soup)]
              else []),
      snd s), @Raise Form LinkNotFoundError) in
  (Z.of_nat (length (select (css B) soup sel (nr + 1))) <> (nr + 1)%Z ->
   select_form B (PStr sel) nr s = failed) /\
  ((nr < -1)%Z -> select_form B (PStr sel) nr s = failed).
Proof.
  intros Hp failed.
  assert (H : Z.of_nat (length (select (css B) soup sel (nr + 1)))
              <> (nr + 1)%Z ->
              select_form B (PStr sel) nr s = failed).
  { intro Hne. subst failed.
    destruct s as [[l fl dl] [d v [p u f r] r404 cfg]]. simpl in Hp.
    subst p. apply Z.eqb_neq in Hne.
    unfold select_form. unfold bind at 1. unfold bind at 1. simpl.
    rewrite Hne. simpl.
    destruct d; simpl.
    - unfold bind, self, when, emit, launch_browser, page, ret, raise, logged;
        simpl. rewrite <- app_assoc. reflexivity.
    - unfold logged. simpl. rewrite app_nil_r. reflexivity. }
  split; [exact H |].
  intro Hneg. apply H. lia.
Qed.

Lemma select_form_lookup_fails_witness :
  snd (select_form Demo.backend (PStr "form") (-2) Demo.at_home)
  = Raise LinkNotFoundError.
Proof.
  rewrite (proj2 (select_form_lookup_fails Demo.backend "form" (-2)
                    Demo.at_home Demo.home eq_refl)); [reflexivity | lia].
Defined.
